(** * simple-grid-world: the [GridWorldEnv] environment

    A shallow embedding of [simple_grid_world/envs/grid_world.py] and the
    properties of its constructor, [reset] and [step].

    Conventions of the embedding:
    - a position is a pair (row, column); NumPy integer arrays hold
      64-bit signed integers, whose addition wraps around;
    - a Python exception is an outcome [Raise e]; methods are
      computations in a state-and-exception monad;
    - the process-wide generator [np.random] is a state threaded through
      every computation that draws from it. *)

From Stdlib Require Import ZArith List Bool Lia.
From stdpp Require Import gmap strings list fin_maps.
Import ListNotations.

Local Open Scope Z_scope.

(** ** Exceptions and outcomes *)

Inductive exn : Type :=
| ValueError
| KeyError
| TypeError
| AttributeError
| AssertionError
| ZeroDivisionError
| OverflowError
| GymError.               (* gymnasium.error.Error *)

(** The result of running a piece of the program: a value, a raised
    exception, or [Starved] when the generator's tape (below) ended
    while the program still wanted a draw. *)
Inductive outcome (A : Type) : Type :=
| Ret (a : A)
| Raise (e : exn)
| Starved.

Arguments Ret {A} a.
Arguments Raise {A} e.
Arguments Starved {A}.

(** ** A state-and-exception monad *)

Definition M (S A : Type) : Type := S -> outcome A * S.

Definition ret {S A} (a : A) : M S A := fun s => (Ret a, s).

Definition bind {S A B} (m : M S A) (k : A -> M S B) : M S B :=
  fun s =>
    match m s with
    | (Ret a, s') => k a s'
    | (Raise e, s') => (Raise e, s')
    | (Starved, s') => (Starved, s')
    end.

Definition raise {S A} (e : exn) : M S A := fun s => (Raise e, s).

(** An exception-or-value computed without touching the state. *)
Definition lift {S A} (r : exn + A) : M S A :=
  match r with
  | inl e => raise e
  | inr a => ret a
  end.

Notation "x <- c1 ;; c2" := (bind c1 (fun x => c2))
  (at level 100, c1 at next level, right associativity).
Notation "c1 ;; c2" := (bind c1 (fun _ => c2))
  (at level 100, right associativity).

(** ** NumPy values *)

Definition Pos : Type := (Z * Z)%type.

(** The arrays the environment stores for the agent: [np.array(None)]
    is a zero-dimensional object array, [np.array([r, c])] a vector of
    two integers. *)
Inductive ndarray : Type :=
| ANone
| AVec (p : Pos).

(** Results of comparisons: a single boolean or a vector of two. *)
Inductive boolarray : Type :=
| BScalar (b : bool)
| BVec (b : bool * bool).

Definition np_array (agent_location : option Pos) : ndarray :=
  match agent_location with
  | None => ANone
  | Some p => AVec p
  end.

(** [a == None]: element-wise; only the object [None] equals [None]. *)
Definition eq_None (a : ndarray) : boolarray :=
  match a with
  | ANone => BScalar true
  | AVec _ => BVec (false, false)
  end.

(** [new != t] on two integer vectors. *)
Definition ne_pos (new t : Pos) : boolarray :=
  BVec (negb (fst new =? fst t), negb (snd new =? snd t)).

(** [a != new], [new] an integer vector; [None] differs from every
    integer and broadcasts over the vector. *)
Definition ne (a : ndarray) (new : Pos) : boolarray :=
  match a with
  | ANone => BVec (true, true)
  | AVec p => ne_pos p new
  end.

(** [b.any()] *)
Definition any_ (b : boolarray) : bool :=
  match b with
  | BScalar x => x
  | BVec (x, y) => x || y
  end.

(** [bool(b)], as taken by [if]: an array of more than one element has
    no truth value. *)
Definition truth (b : boolarray) : exn + bool :=
  match b with
  | BScalar x => inr x
  | BVec _ => inl ValueError
  end.

(** [np.array_equal(a, t)]: same shape and same elements. *)
Definition array_equal (a : ndarray) (t : Pos) : bool :=
  match a with
  | ANone => false
  | AVec p => (fst p =? fst t) && (snd p =? snd t)
  end.

(** 64-bit signed wrap-around. *)
Definition wrap64 (z : Z) : Z := (z + 2 ^ 63) mod 2 ^ 64 - 2 ^ 63.

(** [a + direction]: [None] cannot be added to an integer. *)
Definition ndarray_add (a : ndarray) (d : Pos) : exn + Pos :=
  match a with
  | ANone => inl TypeError
  | AVec p => inr (wrap64 (fst p + fst d), wrap64 (snd p + snd d))
  end.

(** [np.clip(x, lo, hi)] is [minimum(hi, maximum(x, lo))], per
    coordinate. *)
Definition np_clip (x lo hi : Pos) : Pos :=
  (Z.min (fst hi) (Z.max (fst x) (fst lo)),
   Z.min (snd hi) (Z.max (snd x) (snd lo))).

(** ** The process-wide generator [np.random]

    Its hidden state is represented by the tape of raw pairs it is
    going to emit; a bounded draw reduces the next raw pair into the
    requested range, so a draw is a function of the hidden state and
    always lands in range. *)

Definition RandomState : Type := list (Z * Z).

(** [randint] rejects an empty range and a bound that does not fit the
    64-bit result type.  Bounds above [2 ^ 63], which NumPy may first
    round as floating-point numbers, are all refused here; no
    environment the constructor returns has such bounds. *)
Definition randint_rejects (row col : Z) : bool :=
  (row <=? 0) || (col <=? 0) || (2 ^ 63 <? row) || (2 ^ 63 <? col).

Definition randint_reduce (row col : Z) (w : Z * Z) : Pos :=
  (fst w mod row, snd w mod col).

(** [np.random.randint(low=[0, 0], high=[row, col], size=2, dtype=int)] *)
Definition randint (row col : Z) : M RandomState Pos :=
  fun g =>
    if randint_rejects row col then (Raise ValueError, g)
    else match g with
         | [] => (Starved, g)
         | w :: g' => (Ret (randint_reduce row col w), g')
         end.

(** The rejection-sampling loop of the constructor:
    [while len(target) < target_location: ...].  Each iteration takes
    one draw, so the loop is a recursion on the tape. *)
Fixpoint while_sample (n row col : Z) (init_agent : ndarray)
    (target : list Pos) (g : RandomState) {struct g}
    : outcome (list Pos) * RandomState :=
  if Z.of_nat (length target) <? n then
    if randint_rejects row col then (Raise ValueError, g)
    else match g with
         | [] => (Starved, g)
         | w :: g' =>
             let new := randint_reduce row col w in
             if forallb (fun t => any_ (ne_pos new t)) target
                && any_ (ne init_agent new)
             then while_sample n row col init_agent (target ++ [new]) g'
             else while_sample n row col init_agent target g'
         end
  else (Ret target, g).

(** ** Python integers, and the spaces of gymnasium *)

(** [a / b] on two integers is the exact quotient rounded to the
    nearest double, ties to even; it raises [OverflowError] when that
    double is not finite, that is when the quotient reaches the midpoint
    between the largest double and [2 ^ 1024]. *)
Definition truediv_overflows (a b : Z) : bool :=
  (2 ^ 1024 - 2 ^ 970) * Z.abs b <=? Z.abs a.

(** [spaces.Box(low=[0, 0], high=[row - 1, col - 1], dtype=int)] refuses
    an upper bound below the lower one and an upper bound that is not a
    64-bit integer. *)
Definition box_rejects (row col : Z) : bool :=
  (row <? 1) || (col <? 1) || (2 ^ 63 <? row) || (2 ^ 63 <? col).

(** ** The environment *)

(** The part of gymnasium the environment calls into:
    [gymnasium.utils.seeding.np_random], which builds a generator from a
    seed or raises. *)
Class Gymnasium : Type := {
  Generator : Type;
  seeding_np_random : Z -> exn + Generator;
}.

(** [target_location] is either an [int] (a count) or a list of
    positions. *)
Inductive target_spec : Type :=
| TCount (n : Z)
| TExplicit (l : list Pos).

Definition observation : Type := (ndarray * list Pos)%type.
Definition info : Type := gmap string Z.

Definition render_modes : list string := ["human"; "rgb_array"]%string.

(** [self._action_to_direction] *)
Definition _action_to_direction : gmap Z Pos :=
  <[0 := (0, 1)]> (<[1 := (-1, 0)]> (<[2 := (0, -1)]> (<[3 := (1, 0)]> ∅))).

Section Env.

Context `{Gymnasium}.

(** The attributes of a [GridWorldEnv] instance.  [agent_location] and
    [target_location] do not exist before the first [reset]; [window]
    and [clock] record whether the display resources were created;
    [np_random] is the generator owned by the environment. *)
Record GridWorldEnv : Type := {
  row : Z;
  col : Z;
  init_agent : ndarray;
  init_target : list Pos;
  term_reward : Z;
  step_reward : Z;
  render_mode : option string;
  window : bool;
  clock : bool;
  np_random : option Generator;
  agent_location : option ndarray;
  target_location : option (list Pos);
}.

Definition set_np_random (v : option Generator) (e : GridWorldEnv) :=
  {| row := row e; col := col e; init_agent := init_agent e;
     init_target := init_target e; term_reward := term_reward e;
     step_reward := step_reward e; render_mode := render_mode e;
     window := window e; clock := clock e; np_random := v;
     agent_location := agent_location e;
     target_location := target_location e |}.

Definition set_agent_location (v : option ndarray) (e : GridWorldEnv) :=
  {| row := row e; col := col e; init_agent := init_agent e;
     init_target := init_target e; term_reward := term_reward e;
     step_reward := step_reward e; render_mode := render_mode e;
     window := window e; clock := clock e; np_random := np_random e;
     agent_location := v;
     target_location := target_location e |}.

Definition set_target_location (v : option (list Pos)) (e : GridWorldEnv) :=
  {| row := row e; col := col e; init_agent := init_agent e;
     init_target := init_target e; term_reward := term_reward e;
     step_reward := step_reward e; render_mode := render_mode e;
     window := window e; clock := clock e; np_random := np_random e;
     agent_location := agent_location e;
     target_location := v |}.

Definition set_window (v : bool) (e : GridWorldEnv) :=
  {| row := row e; col := col e; init_agent := init_agent e;
     init_target := init_target e; term_reward := term_reward e;
     step_reward := step_reward e; render_mode := render_mode e;
     window := v; clock := clock e; np_random := np_random e;
     agent_location := agent_location e;
     target_location := target_location e |}.

Definition set_clock (v : bool) (e : GridWorldEnv) :=
  {| row := row e; col := col e; init_agent := init_agent e;
     init_target := init_target e; term_reward := term_reward e;
     step_reward := step_reward e; render_mode := render_mode e;
     window := window e; clock := v; np_random := np_random e;
     agent_location := agent_location e;
     target_location := target_location e |}.

(** What a method call can read and write: the instance and the
    process-wide generator. *)
Record World : Type := {
  self : GridWorldEnv;
  global_rng : RandomState;
}.

Definition get_self : M World GridWorldEnv :=
  fun w => (Ret (self w), w).

Definition modify_self (f : GridWorldEnv -> GridWorldEnv) : M World unit :=
  fun w => (Ret tt, {| self := f (self w); global_rng := global_rng w |}).

(** Reading an attribute that was never assigned raises. *)
Definition getattr {A} (f : GridWorldEnv -> option A) : M World A :=
  fun w =>
    match f (self w) with
    | Some a => (Ret a, w)
    | None => (Raise AttributeError, w)
    end.

(** A draw from [np.random] inside a method. *)
Definition np_random_randint (r c : Z) : M World Pos :=
  fun w =>
    match randint r c (global_rng w) with
    | (o, g') => (o, {| self := self w; global_rng := g' |})
    end.

(** [d[k]] on a dictionary. *)
Definition dict_getitem {S} (d : gmap Z Pos) (k : Z) : M S Pos :=
  match d !! k with
  | Some v => ret v
  | None => raise KeyError
  end.

Definition is_human (rm : option string) : bool :=
  match rm with
  | Some s => String.eqb s "human"
  | None => false
  end.

(** [__init__]: the window geometry divides [1024 * col] by [row]; the
    targets are sampled or taken as given; the observation space is
    built from the grid bounds; the render mode is asserted last.  Of
    the window geometry and the spaces, which play no part in [reset]
    and [step], only the exceptions are kept. *)
Definition __init__ (agent_location : option Pos)
    (target_location : target_spec) (render_mode : option string)
    (row col term_reward step_reward : Z) : M RandomState GridWorldEnv :=
  (if row =? 0 then raise ZeroDivisionError
   else if truediv_overflows (1024 * col) row then raise OverflowError
   else ret tt) ;;
  let init_agent := np_array agent_location in
  init_target <- match target_location with
                 | TCount n => while_sample n row col init_agent []
                 | TExplicit l => ret l
                 end ;;
  (if box_rejects row col then raise ValueError else ret tt) ;;
  (match render_mode with
   | None => ret tt
   | Some s => if existsb (String.eqb s) render_modes then ret tt
               else raise AssertionError
   end) ;;
  ret {| row := row; col := col; init_agent := init_agent;
         init_target := init_target; term_reward := term_reward;
         step_reward := step_reward; render_mode := render_mode;
         window := false; clock := false; np_random := None;
         agent_location := None; target_location := None |}.

Definition _get_obs : M World observation :=
  a <- getattr agent_location ;;
  t <- getattr target_location ;;
  ret (a, t).

Definition _get_info : M World info := ret ∅.

(** [_render_frame], as far as the instance is concerned: in human mode
    the window and the clock are created on first use. *)
Definition _render_frame : M World unit :=
  e <- get_self ;;
  (if negb (window e) && is_human (render_mode e)
   then modify_self (set_window true) else ret tt) ;;
  e <- get_self ;;
  (if negb (clock e) && is_human (render_mode e)
   then modify_self (set_clock true) else ret tt).

(** [super().reset(seed=seed)]: a seed, when given, replaces the
    environment's own generator. *)
Definition super_reset (seed : option Z) : M World unit :=
  match seed with
  | None => ret tt
  | Some s =>
      gen <- lift (seeding_np_random s) ;;
      modify_self (set_np_random (Some gen))
  end.

Definition reset (seed : option Z) (options : option (gmap string Z))
    : M World (observation * info) :=
  super_reset seed ;;
  e <- get_self ;;
  c <- lift (truth (eq_None (init_agent e))) ;;
  a <- (if c then p <- np_random_randint (row e) (col e) ;; ret (AVec p)
        else ret (init_agent e)) ;;
  modify_self (set_agent_location (Some a)) ;;
  modify_self (set_target_location (Some (init_target e))) ;;
  observation <- _get_obs ;;
  info <- _get_info ;;
  (if is_human (render_mode e) then _render_frame else ret tt) ;;
  ret (observation, info).

(** The loop of [step] over the targets, with its [break]. *)
Fixpoint for_target (a : ndarray) (targets : list Pos) (terminated : bool)
    : bool :=
  match targets with
  | [] => terminated
  | target_location :: rest =>
      let terminated := array_equal a target_location in
      if terminated then terminated else for_target a rest terminated
  end.

Definition step (action : Z)
    : M World (observation * Z * bool * bool * info) :=
  direction <- dict_getitem _action_to_direction action ;;
  a <- getattr agent_location ;;
  moved <- lift (ndarray_add a direction) ;;
  e <- get_self ;;
  modify_self (set_agent_location
    (Some (AVec (np_clip moved (0, 0) (row e - 1, col e - 1))))) ;;
  a <- getattr agent_location ;;
  targets <- getattr target_location ;;
  let terminated := for_target a targets false in
  let reward := if terminated then term_reward e else step_reward e in
  observation <- _get_obs ;;
  info <- _get_info ;;
  (if is_human (render_mode e) then _render_frame else ret tt) ;;
  ret (observation, reward, terminated, false, info).

(** ** The words of the specification

    The direction table and the clamping rule as the specification
    phrases them, to be compared with what [step] computes. *)

(** right, up, left, down are the unit vectors (0,+1), (-1,0), (0,-1),
    (+1,0) in (row, col) coordinates. *)
Definition unit_vector (action : Z) : Pos :=
  if action =? 0 then (0, 1)
  else if action =? 1 then (-1, 0)
  else if action =? 2 then (0, -1)
  else (1, 0).

(** Clamping: the nearest value of [lo, hi]. *)
Definition clamp (lo hi x : Z) : Z :=
  if x <? lo then lo else if hi <? x then hi else x.

Definition in_grid (rows cols : Z) (p : Pos) : Prop :=
  0 <= fst p <= rows - 1 /\ 0 <= snd p <= cols - 1.

(** The effect of [_render_frame] on the instance. *)
Definition render_effect (e : GridWorldEnv) : GridWorldEnv :=
  let e1 := if negb (window e) && is_human (render_mode e)
            then set_window true e else e in
  if negb (clock e1) && is_human (render_mode e1)
  then set_clock true e1 else e1.

Definition shown (e : GridWorldEnv) : GridWorldEnv :=
  if is_human (render_mode e) then render_effect e else e.

(** The position [step] moves the agent to. *)
Definition moved_to (e : GridWorldEnv) (p d : Pos) : Pos :=
  np_clip (wrap64 (fst p + fst d), wrap64 (snd p + snd d))
          (0, 0) (row e - 1, col e - 1).

(** The instance after [super().reset(seed=seed)], or the exception of
    the seeding. *)
Definition after_seed (seed : option Z) (e : GridWorldEnv)
    : exn + GridWorldEnv :=
  match seed with
  | None => inr e
  | Some s =>
      match seeding_np_random s with
      | inl ex => inl ex
      | inr gen => inr (set_np_random (Some gen) e)
      end
  end.

(** A seed the seeding does not refuse; no seed at all is always fine. *)
Definition seed_accepted (seed : option Z) : Prop :=
  match seed with
  | None => True
  | Some s => exists gen, seeding_np_random s = inr gen
  end.

(** The render modes the constructor's assertion lets through. *)
Definition render_mode_ok (rm : option string) : Prop :=
  rm = None \/ rm = Some "human"%string \/ rm = Some "rgb_array"%string.

(** The same test as a boolean, as the constructor evaluates it. *)
Definition render_mode_accepted (rm : option string) : bool :=
  match rm with
  | None => true
  | Some s => existsb (String.eqb s) render_modes
  end.

(** An instance as the constructor leaves it. *)
Definition built (init_agent : ndarray) (init_target : list Pos)
    (render_mode : option string) (row col term_reward step_reward : Z)
    : GridWorldEnv :=
  {| row := row; col := col; init_agent := init_agent;
     init_target := init_target; term_reward := term_reward;
     step_reward := step_reward; render_mode := render_mode;
     window := false; clock := false; np_random := None;
     agent_location := None; target_location := None |}.

(** A world of an environment configured as [e]: the same grid and the
    same agent and targets of the constructor. *)
Definition configured_as (e : GridWorldEnv) (w : World) : Prop :=
  row (self w) = row e /\ col (self w) = col e /\
  init_agent (self w) = init_agent e /\
  init_target (self w) = init_target e.

(** The instance once [reset] has placed the agent at [p]. *)
Definition placed (p : Pos) (e : GridWorldEnv) : GridWorldEnv :=
  shown (set_target_location (Some (init_target e))
           (set_agent_location (Some (AVec p)) e)).

(** What holds of the agent whenever it has a location: it is a
    position of the grid, and the targets are in place too. *)
Definition ready_inv (e : GridWorldEnv) : Prop :=
  forall a, agent_location e = Some a ->
    (exists p, a = AVec p /\ in_grid (row e) (col e) p) /\
    (exists ts, target_location e = Some ts).

(** The worlds a program can bring about: construct an environment,
    then call [reset] and [step] in any order, with any arguments and
    whatever their outcome; other code of the process may draw from
    [np.random] in between. *)
Inductive reachable : World -> Prop :=
| reach_init al tl rm r c tr sr g e g' :
    __init__ al tl rm r c tr sr g = (Ret e, g') ->
    reachable {| self := e; global_rng := g' |}
| reach_reset seed options w o w' :
    reachable w -> reset seed options w = (o, w') -> reachable w'
| reach_step a w o w' :
    reachable w -> step a w = (o, w') -> reachable w'
| reach_draws w g :
    reachable w -> reachable {| self := self w; global_rng := g |}.

End Env.

(** A concrete reading of gymnasium's seeding for worked examples: a
    generator is represented by the seed it was built from, and a
    negative seed is refused. *)
Definition seeded_by : Gymnasium :=
  {| Generator := Z;
     seeding_np_random := fun s => if s <? 0 then inl GymError else inr s |}.

(** Coordinates whose neighbours are still 64-bit integers. *)
Definition interior64 (p : Pos) : Prop :=
  - 2 ^ 63 < fst p < 2 ^ 63 - 1 /\ - 2 ^ 63 < snd p < 2 ^ 63 - 1.

(** Worked examples on the default 5 x 5 grid with rewards 1 and 0 and
    no rendering: an environment with a random agent, as the constructor
    leaves it, and the same environment once the agent is placed. *)
Definition grid5 (targets : list Pos) : @GridWorldEnv seeded_by :=
  {| row := 5; col := 5; init_agent := ANone; init_target := targets;
     term_reward := 1; step_reward := 0; render_mode := None;
     window := false; clock := false; np_random := None;
     agent_location := None; target_location := None |}.

Definition grid5_at (p : Pos) (targets : list Pos) : @GridWorldEnv seeded_by :=
  set_target_location (Some targets)
    (set_agent_location (Some (AVec p)) (grid5 targets)).

Definition world5 (p : Pos) (targets : list Pos) (g : RandomState)
    : @World seeded_by :=
  {| self := grid5_at p targets; global_rng := g |}.

(** An environment built with the explicit agent position (0, 0) and
    the explicit target (2, 2). *)
Definition explicit5 : @GridWorldEnv seeded_by :=
  {| row := 5; col := 5; init_agent := AVec (0, 0); init_target := [(2, 2)];
     term_reward := 1; step_reward := 0; render_mode := None;
     window := false; clock := false; np_random := None;
     agent_location := None; target_location := None |}.

(** The two states of an instance.  Before the first successful
    [reset] neither location exists and no display was created.  After
    it the agent is on a grid cell, the targets are those of the
    constructor, the agent was not given explicitly, and the display
    exists exactly in human mode. *)
Section Lifecycle.

Context `{Gymnasium}.

Definition uninitialized (e : GridWorldEnv) : Prop :=
  agent_location e = None /\ target_location e = None /\
  window e = false /\ clock e = false.

Definition ready (e : GridWorldEnv) : Prop :=
  (exists p, agent_location e = Some (AVec p) /\
             in_grid (row e) (col e) p) /\
  target_location e = Some (init_target e) /\
  init_agent e = ANone /\
  window e = is_human (render_mode e) /\
  clock e = is_human (render_mode e).

(** The attributes [step] has no business changing. *)
Definition same_setup (e e' : GridWorldEnv) : Prop :=
  row e' = row e /\ col e' = col e /\
  init_agent e' = init_agent e /\ init_target e' = init_target e /\
  term_reward e' = term_reward e /\ step_reward e' = step_reward e /\
  render_mode e' = render_mode e /\ np_random e' = np_random e /\
  target_location e' = target_location e.

End Lifecycle.

Section Properties.

Context `{Gymnasium}.

(** ** The action table *)

Lemma action_lookup_valid (a : Z) :
  0 <= a <= 3 -> _action_to_direction !! a = Some (unit_vector a).
Proof.
  intros Ha.
  assert (a = 0 \/ a = 1 \/ a = 2 \/ a = 3) as [-> | [-> | [-> | ->]]] by lia;
    reflexivity.
Qed.

Lemma action_lookup_invalid (a : Z) :
  ~ (0 <= a <= 3) -> _action_to_direction !! a = None.
Proof.
  intros Ha. unfold _action_to_direction.
  rewrite !lookup_insert_ne by lia. apply lookup_empty.
Qed.

(** ** The target loop *)

Lemma for_target_spec (p : Pos) (targets : list Pos) :
  for_target (AVec p) targets false = true <-> In p targets.
Proof.
  induction targets as [| t rest IH]; simpl.
  - split; [discriminate | tauto].
  - destruct ((fst p =? fst t) && (snd p =? snd t)) eqn:E.
    + split; [intros _ | reflexivity]. left.
      apply andb_true_iff in E as [E1 E2].
      apply Z.eqb_eq in E1, E2. destruct p, t; simpl in *; congruence.
    + rewrite IH. split; [tauto |]. intros [-> | Hin]; [| assumption].
      rewrite !Z.eqb_refl in E. discriminate.
Qed.

(** ** [step] on an initialised environment *)

Lemma render_frame_run (w : World) :
  _render_frame w
  = (Ret tt, {| self := render_effect (self w); global_rng := global_rng w |}).
Proof.
  destruct w as [e g]. unfold _render_frame, render_effect, bind, get_self.
  simpl.
  destruct (negb (window e) && is_human (render_mode e)); simpl;
    destruct (negb (clock e) && is_human (render_mode e)); reflexivity.
Qed.

Lemma step_run (w : World) (a : Z) (p d : Pos) (ts : list Pos) :
  _action_to_direction !! a = Some d ->
  agent_location (self w) = Some (AVec p) ->
  target_location (self w) = Some ts ->
  let p' := moved_to (self w) p d in
  let terminated := for_target (AVec p') ts false in
  step a w
  = (Ret ((AVec p', ts),
          (if terminated then term_reward (self w) else step_reward (self w)),
          terminated, false, ∅),
     {| self := shown (set_agent_location (Some (AVec p')) (self w));
        global_rng := global_rng w |}).
Proof.
  intros Hd Ha Ht. destruct w as [e g]. simpl in *.
  unfold step, dict_getitem. rewrite Hd.
  cbv [bind ret getattr lift get_self modify_self _get_obs _get_info
       ndarray_add self global_rng].
  rewrite Ha. simpl. rewrite Ht. unfold shown, moved_to. simpl.
  destruct (is_human (render_mode e)) eqn:Hh; simpl; rewrite Ht; simpl;
    [| reflexivity].
  rewrite render_frame_run. reflexivity.
Qed.

Lemma step_unknown_action (w : World) (a : Z) :
  ~ (0 <= a <= 3) -> step a w = (Raise KeyError, w).
Proof.
  intros Ha. unfold step, dict_getitem.
  rewrite (action_lookup_invalid a Ha). reflexivity.
Qed.

(** ** Clamping *)

Lemma wrap64_id (z : Z) : - 2 ^ 63 <= z < 2 ^ 63 -> wrap64 z = z.
Proof.
  intros Hz. unfold wrap64.
  rewrite Z.mod_small by lia. lia.
Qed.

Lemma min_max_clamp (lo hi x : Z) :
  lo <= hi -> Z.min hi (Z.max x lo) = clamp lo hi x.
Proof.
  intros Hle. unfold clamp.
  destruct (Z.ltb_spec x lo); [lia |].
  destruct (Z.ltb_spec hi x); lia.
Qed.

Lemma np_clip_in_grid (x : Pos) (rows cols : Z) :
  0 < rows -> 0 < cols ->
  in_grid rows cols (np_clip x (0, 0) (rows - 1, cols - 1)).
Proof. intros Hr Hc. unfold in_grid, np_clip. simpl. lia. Qed.

Lemma unit_vector_small (a : Z) :
  -1 <= fst (unit_vector a) <= 1 /\ -1 <= snd (unit_vector a) <= 1.
Proof.
  unfold unit_vector.
  destruct (a =? 0); [simpl; lia |].
  destruct (a =? 1); [simpl; lia |].
  destruct (a =? 2); simpl; lia.
Qed.

Lemma shown_agent_location (e : GridWorldEnv) :
  agent_location (shown e) = agent_location e.
Proof.
  unfold shown, render_effect. destruct e as [? ? ? ? ? ? rm wi cl ? ? ?].
  simpl. destruct (is_human rm) eqn:Hh; [| reflexivity].
  destruct wi, cl; simpl; rewrite ?Hh; reflexivity.
Qed.

Lemma shown_target_location (e : GridWorldEnv) :
  target_location (shown e) = target_location e.
Proof.
  unfold shown, render_effect. destruct e as [? ? ? ? ? ? rm wi cl ? ? ?].
  simpl. destruct (is_human rm) eqn:Hh; [| reflexivity].
  destruct wi, cl; simpl; rewrite ?Hh; reflexivity.
Qed.

Lemma shown_grid (e : GridWorldEnv) :
  row (shown e) = row e /\ col (shown e) = col e /\
  init_agent (shown e) = init_agent e /\ init_target (shown e) = init_target e.
Proof.
  unfold shown, render_effect. destruct e as [? ? ? ? ? ? rm wi cl ? ? ?].
  simpl. destruct (is_human rm) eqn:Hh; [| tauto].
  destruct wi, cl; simpl; rewrite ?Hh; simpl; tauto.
Qed.

(** ** Claims about [step] *)

(** C2. For a recognized action, on an environment that has been reset,
    [step] returns [terminated = true] exactly when the clamped new
    position of the agent is one of the targets; the reward is the
    terminal reward when terminated and the step reward otherwise; the
    truncated flag is [false] and the info mapping is empty. *)
Theorem step_terminated_iff_on_target
    (w : World) (a : Z) (p : Pos) (ts : list Pos) :
  agent_location (self w) = Some (AVec p) ->
  target_location (self w) = Some ts ->
  0 <= a <= 3 ->
  exists (p' : Pos) (reward : Z) (terminated : bool) (w' : World),
    step a w = (Ret ((AVec p', ts), reward, terminated, false, ∅), w') /\
    p' = moved_to (self w) p (unit_vector a) /\
    agent_location (self w') = Some (AVec p') /\
    target_location (self w') = Some ts /\
    (terminated = true <-> In p' ts) /\
    reward = (if terminated then term_reward (self w)
              else step_reward (self w)).
Proof.
  intros Hp Ht Ha.
  pose proof (step_run w a p (unit_vector a) ts
                (action_lookup_valid a Ha) Hp Ht) as Hrun.
  cbv zeta in Hrun.
  eexists _, _, _, _. split; [exact Hrun |].
  split; [reflexivity |]. simpl.
  rewrite shown_agent_location, shown_target_location. simpl.
  repeat split; try assumption; apply for_target_spec.
Qed.

(** C3. For every action in {0,1,2,3} and every current position whose
    neighbours are 64-bit integers, on a grid with at least one row and
    one column, [step] sets the agent position to the current position
    plus the unit vector of the action, each coordinate clamped into
    [0, rows-1] and [0, cols-1]. *)
Theorem step_adds_unit_vector_and_clamps
    (w : World) (a : Z) (p : Pos) (ts : list Pos) :
  agent_location (self w) = Some (AVec p) ->
  target_location (self w) = Some ts ->
  0 <= a <= 3 ->
  0 < row (self w) -> 0 < col (self w) ->
  interior64 p ->
  exists out w',
    step a w = (Ret out, w') /\
    agent_location (self w')
    = Some (AVec (clamp 0 (row (self w) - 1) (fst p + fst (unit_vector a)),
                  clamp 0 (col (self w) - 1) (snd p + snd (unit_vector a)))).
Proof.
  intros Hp Ht Ha Hr Hc [Hp1 Hp2].
  pose proof (step_run w a p (unit_vector a) ts
                (action_lookup_valid a Ha) Hp Ht) as Hrun.
  cbv zeta in Hrun.
  eexists _, _. split; [exact Hrun |]. simpl.
  rewrite shown_agent_location. simpl. do 2 f_equal.
  destruct (unit_vector_small a) as [Hu1 Hu2].
  unfold moved_to, np_clip. cbn [fst snd].
  rewrite !wrap64_id by lia.
  rewrite !min_max_clamp by lia. reflexivity.
Qed.

(** C9. For every action value other than 0, 1, 2 and 3, [step] raises
    [KeyError]: it returns no result and substitutes no action. *)
Theorem step_unknown_action_raises (w : World) (a : Z) :
  ~ (0 <= a <= 3) -> fst (step a w) = Raise KeyError.
Proof. intros Ha. rewrite (step_unknown_action w a Ha). reflexivity. Qed.

(** C10. For every state and every unrecognized action, the failing
    [step] leaves the instance, agent position and targets included, and
    the process-wide generator exactly as they were. *)
Theorem step_unknown_action_keeps_state (w : World) (a : Z) :
  ~ (0 <= a <= 3) -> snd (step a w) = w.
Proof. intros Ha. rewrite (step_unknown_action w a Ha). reflexivity. Qed.

(** ** [reset] *)

Lemma super_reset_run (seed : option Z) (w : World) :
  super_reset seed w
  = match after_seed seed (self w) with
    | inl ex => (Raise ex, w)
    | inr e => (Ret tt, {| self := e; global_rng := global_rng w |})
    end.
Proof.
  destruct w as [e g]. unfold super_reset, after_seed. simpl.
  destruct seed as [s |]; [| reflexivity].
  unfold bind, lift. destruct (seeding_np_random s); reflexivity.
Qed.

Lemma after_seed_fields (seed : option Z) (e e1 : GridWorldEnv) :
  after_seed seed e = inr e1 ->
  row e1 = row e /\ col e1 = col e /\ init_agent e1 = init_agent e /\
  init_target e1 = init_target e /\ render_mode e1 = render_mode e /\
  agent_location e1 = agent_location e /\
  target_location e1 = target_location e.
Proof.
  unfold after_seed. destruct seed as [s |].
  - destruct (seeding_np_random s); [discriminate |].
    intros [= <-]. simpl. tauto.
  - intros [= <-]. tauto.
Qed.

(** With an explicit agent position the comparison [init_agent == None]
    is a vector of two booleans, and taking its truth value raises. *)
Lemma reset_explicit_agent_raises
    (seed : option Z) (options : option (gmap string Z)) (w : World) (p : Pos) :
  init_agent (self w) = AVec p ->
  exists ex w',
    reset seed options w = (Raise ex, w') /\
    agent_location (self w') = agent_location (self w) /\
    target_location (self w') = target_location (self w) /\
    global_rng w' = global_rng w.
Proof.
  intros Hp. unfold reset. unfold bind at 1. rewrite super_reset_run.
  destruct (after_seed seed (self w)) as [ex | e1] eqn:Hs.
  - exists ex, w. tauto.
  - destruct (after_seed_fields _ _ _ Hs) as (_ & _ & Hia & _ & _ & Hal & Htl).
    exists ValueError, {| self := e1; global_rng := global_rng w |}.
    cbv [bind get_self self]. rewrite Hia, Hp. simpl. tauto.
Qed.

(** With a random agent, [reset] takes one draw from the process-wide
    generator and installs the targets of the constructor. *)
Lemma reset_random_agent_run
    (seed : option Z) (options : option (gmap string Z)) (w : World)
    (e1 : GridWorldEnv) (r : Z * Z) (g' : RandomState) :
  init_agent (self w) = ANone ->
  after_seed seed (self w) = inr e1 ->
  randint_rejects (row (self w)) (col (self w)) = false ->
  global_rng w = r :: g' ->
  let p := randint_reduce (row (self w)) (col (self w)) r in
  reset seed options w
  = (Ret ((AVec p, init_target (self w)), ∅),
     {| self := placed p e1; global_rng := g' |}).
Proof.
  intros Hia Hs Hrej Hg. destruct w as [e g]. simpl in *. subst g.
  destruct (after_seed_fields _ _ _ Hs) as (Hr & Hc & Hia1 & Hit & Hrm & _ & _).
  unfold reset. unfold bind at 1. rewrite super_reset_run. simpl. rewrite Hs.
  cbv [bind get_self self]. rewrite Hia1, Hia. simpl.
  unfold np_random_randint, randint. simpl. rewrite Hr, Hc, Hrej. simpl.
  unfold _get_obs, getattr, bind, _get_info, ret. simpl.
  unfold placed, shown. simpl. rewrite Hit, Hrm.
  destruct (is_human (render_mode e)); [| reflexivity].
  rewrite render_frame_run. reflexivity.
Qed.

(** ** The invariant of reachable worlds *)

Lemma randint_accepts (rows cols : Z) :
  randint_rejects rows cols = false ->
  0 < rows <= 2 ^ 63 /\ 0 < cols <= 2 ^ 63.
Proof.
  unfold randint_rejects. intros Hrej.
  repeat (apply orb_false_iff in Hrej as [Hrej ?]).
  apply Z.leb_gt in Hrej.
  repeat match goal with
         | Hx : (_ <=? _) = false |- _ => apply Z.leb_gt in Hx
         | Hx : (_ <? _) = false |- _ => apply Z.ltb_ge in Hx
         end.
  lia.
Qed.

Lemma randint_reduce_in_grid (rows cols : Z) (r : Z * Z) :
  0 < rows -> 0 < cols -> in_grid rows cols (randint_reduce rows cols r).
Proof.
  intros Hr Hc. unfold in_grid, randint_reduce. simpl.
  pose proof (Z.mod_pos_bound (fst r) rows Hr).
  pose proof (Z.mod_pos_bound (snd r) cols Hc). lia.
Qed.

Lemma placed_ready (p : Pos) (e : GridWorldEnv) :
  in_grid (row e) (col e) p -> ready_inv (placed p e).
Proof.
  intros Hin a. unfold placed.
  rewrite shown_agent_location, shown_target_location.
  destruct (shown_grid (set_target_location (Some (init_target e))
              (set_agent_location (Some (AVec p)) e))) as (-> & -> & _).
  simpl. intros [= <-]. split; eauto.
Qed.

Lemma ready_inv_ext (e e1 : GridWorldEnv) :
  row e1 = row e -> col e1 = col e ->
  agent_location e1 = agent_location e ->
  target_location e1 = target_location e ->
  ready_inv e -> ready_inv e1.
Proof.
  intros Hr Hc Ha Ht Hinv a. rewrite Hr, Hc, Ha, Ht. apply Hinv.
Qed.

Lemma reset_keeps_ready_inv
    (seed : option Z) (options : option (gmap string Z))
    (w w' : World) (o : outcome (observation * info)) :
  ready_inv (self w) -> reset seed options w = (o, w') -> ready_inv (self w').
Proof.
  intros Hinv Hrun.
  destruct (after_seed seed (self w)) as [ex | e1] eqn:Hs.
  - unfold reset in Hrun. unfold bind at 1 in Hrun.
    rewrite super_reset_run, Hs in Hrun. injection Hrun as _ <-. exact Hinv.
  - destruct (after_seed_fields _ _ _ Hs) as (Hr & Hc & Hia & Hit & Hrm & Hal & Htl).
    assert (ready_inv e1) as Hinv1 by (eapply ready_inv_ext; eauto).
    destruct (init_agent (self w)) as [| p] eqn:Hag.
    + destruct (randint_rejects (row (self w)) (col (self w))) eqn:Hrej.
      * unfold reset in Hrun. unfold bind at 1 in Hrun.
        rewrite super_reset_run, Hs in Hrun.
        cbv [bind get_self self] in Hrun. rewrite Hia, ?Hag in Hrun.
        simpl in Hrun. unfold np_random_randint, randint in Hrun.
        simpl in Hrun. rewrite Hr, Hc, Hrej in Hrun.
        injection Hrun as _ <-. exact Hinv1.
      * destruct (global_rng w) as [| r g'] eqn:Hg.
        -- unfold reset in Hrun. unfold bind at 1 in Hrun.
           rewrite super_reset_run, Hs in Hrun.
           cbv [bind get_self self] in Hrun. rewrite Hia, ?Hag in Hrun.
           simpl in Hrun. unfold np_random_randint, randint in Hrun.
           simpl in Hrun. rewrite Hr, Hc, Hrej, Hg in Hrun.
           injection Hrun as _ <-. exact Hinv1.
        -- rewrite (reset_random_agent_run seed options w e1 r g' Hag Hs Hrej Hg)
             in Hrun.
           injection Hrun as _ <-. simpl. apply placed_ready.
           rewrite Hr, Hc. apply randint_accepts in Hrej.
           apply randint_reduce_in_grid; lia.
    + destruct (reset_explicit_agent_raises seed options w p Hag)
        as (ex & w1 & Hrun1 & Ha1 & Ht1 & _).
      rewrite Hrun1 in Hrun. injection Hrun as _ <-.
      unfold reset in Hrun1. unfold bind at 1 in Hrun1.
      rewrite super_reset_run, Hs in Hrun1.
      cbv [bind get_self self] in Hrun1. rewrite Hia, ?Hag in Hrun1.
      simpl in Hrun1. injection Hrun1 as _ <-. exact Hinv1.
Qed.

Lemma step_keeps_ready_inv
    (a : Z) (w w' : World)
    (o : outcome (observation * Z * bool * bool * info)) :
  ready_inv (self w) -> step a w = (o, w') -> ready_inv (self w').
Proof.
  intros Hinv Hrun.
  destruct (_action_to_direction !! a) as [d |] eqn:Hd.
  - destruct (agent_location (self w)) as [al |] eqn:Hal.
    + destruct (Hinv al Hal) as [(p & -> & Hin) (ts & Hts)].
      rewrite (step_run w a p d ts Hd Hal Hts) in Hrun.
      injection Hrun as _ <-. simpl.
      destruct Hin as [Hin1 Hin2].
      intros a'. rewrite shown_agent_location, shown_target_location.
      destruct (shown_grid (set_agent_location
                  (Some (AVec (moved_to (self w) p d))) (self w)))
        as (-> & -> & _).
      simpl. intros [= <-]. split; [| eauto].
      eexists; split; [reflexivity |].
      unfold moved_to. apply np_clip_in_grid; lia.
    + unfold step, dict_getitem in Hrun. rewrite Hd in Hrun.
      cbv [bind ret getattr] in Hrun. rewrite Hal in Hrun.
      injection Hrun as _ <-. exact Hinv.
  - unfold step, dict_getitem in Hrun. rewrite Hd in Hrun.
    injection Hrun as _ <-. exact Hinv.
Qed.

(** ** The constructor *)

Lemma init_run
    (al : option Pos) (tl : target_spec) (rm : option string)
    (r c tr sr : Z) (g : RandomState) :
  __init__ al tl rm r c tr sr g
  = if r =? 0 then (Raise ZeroDivisionError, g)
    else if truediv_overflows (1024 * c) r then (Raise OverflowError, g)
    else
      match (match tl with
             | TCount n => while_sample n r c (np_array al) [] g
             | TExplicit l => (Ret l, g)
             end) with
      | (Ret ts, g1) =>
          if box_rejects r c then (Raise ValueError, g1)
          else if render_mode_accepted rm
               then (Ret (built (np_array al) ts rm r c tr sr), g1)
               else (Raise AssertionError, g1)
      | (Raise ex, g1) => (Raise ex, g1)
      | (Starved, g1) => (Starved, g1)
      end.
Proof.
  unfold __init__, bind, ret, raise, render_mode_accepted, built.
  destruct (r =? 0); [reflexivity |].
  destruct (truediv_overflows (1024 * c) r); [reflexivity |].
  destruct tl as [n | l];
    [destruct (while_sample n r c (np_array al) [] g) as [[ts | ex |] g1];
       try reflexivity |];
    (destruct (box_rejects r c); [reflexivity |]);
    (destruct rm as [m |]; [| reflexivity]);
    destruct (existsb (String.eqb m) render_modes); reflexivity.
Qed.

Lemma render_mode_accepted_ok (rm : option string) :
  render_mode_accepted rm = true <-> render_mode_ok rm.
Proof.
  unfold render_mode_accepted, render_mode_ok. destruct rm as [m |].
  - split.
    + intros Hm. right. apply existsb_exists in Hm as (x & Hx & Heq).
      apply String.eqb_eq in Heq. subst x.
      destruct Hx as [<- | [<- | []]]; tauto.
    + intros [Hn | [[= ->] | [= ->]]]; [discriminate | reflexivity ..].
  - split; [tauto | reflexivity].
Qed.

Lemma box_accepts (rows cols : Z) :
  box_rejects rows cols = false <->
  (0 < rows <= 2 ^ 63 /\ 0 < cols <= 2 ^ 63).
Proof.
  unfold box_rejects. rewrite !orb_false_iff, !Z.ltb_ge. lia.
Qed.

(** On a grid the observation space accepts, the division for the
    window width stays far below the range of a double. *)
Lemma truediv_fits (rows cols : Z) :
  0 < rows -> 0 < cols <= 2 ^ 63 ->
  truediv_overflows (1024 * cols) rows = false.
Proof.
  intros Hr Hc. unfold truediv_overflows. apply Z.leb_gt.
  rewrite !Z.abs_eq by lia.
  assert (2 ^ 74 <= 2 ^ 1024 - 2 ^ 970) as Hbig by (vm_compute; discriminate).
  assert (2 ^ 63 * 1024 < 2 ^ 74) as Hsmall by (vm_compute; reflexivity).
  nia.
Qed.

Lemma init_returns
    (al : option Pos) (tl : target_spec) (rm : option string)
    (r c tr sr : Z) (g g' : RandomState) (e : GridWorldEnv) :
  __init__ al tl rm r c tr sr g = (Ret e, g') ->
  exists ts,
    e = {| row := r; col := c; init_agent := np_array al;
           init_target := ts; term_reward := tr; step_reward := sr;
           render_mode := rm; window := false; clock := false;
           np_random := None; agent_location := None;
           target_location := None |} /\
    match tl with
    | TCount n => while_sample n r c (np_array al) [] g = (Ret ts, g')
    | TExplicit l => ts = l /\ g' = g
    end.
Proof.
  rewrite init_run.
  destruct (r =? 0); [discriminate |].
  destruct (truediv_overflows (1024 * c) r); [discriminate |].
  destruct tl as [n | l];
    [destruct (while_sample n r c (np_array al) [] g) as [[ts | ex |] g1];
       [| discriminate | discriminate] |];
    (destruct (box_rejects r c); [discriminate |]);
    (destruct (render_mode_accepted rm); [| discriminate]);
    intros [= <- <-]; eauto.
Qed.

Lemma init_returns_checks
    (al : option Pos) (tl : target_spec) (rm : option string)
    (r c tr sr : Z) (g g' : RandomState) (e : GridWorldEnv) :
  __init__ al tl rm r c tr sr g = (Ret e, g') ->
  r <> 0 /\ box_rejects r c = false /\ render_mode_accepted rm = true.
Proof.
  rewrite init_run.
  destruct (Z.eqb_spec r 0) as [Hr0 | Hr0]; [discriminate |].
  destruct (truediv_overflows (1024 * c) r); [discriminate |].
  destruct tl as [n | l];
    [destruct (while_sample n r c (np_array al) [] g) as [[ts | ex |] g1];
       [| discriminate | discriminate] |];
    (destruct (box_rejects r c); [discriminate |]);
    (destruct (render_mode_accepted rm); [| discriminate]);
    intros _; tauto.
Qed.

Lemma init_not_ready
    (al : option Pos) (tl : target_spec) (rm : option string)
    (r c tr sr : Z) (g g' : RandomState) (e : GridWorldEnv) :
  __init__ al tl rm r c tr sr g = (Ret e, g') -> ready_inv e.
Proof.
  intros Hrun. destruct (init_returns _ _ _ _ _ _ _ _ _ _ Hrun) as (ts & -> & _).
  intros a. simpl. discriminate.
Qed.

(** Every reachable world satisfies the invariant. *)
Lemma reachable_ready_inv (w : World) : reachable w -> ready_inv (self w).
Proof.
  induction 1 as [al tl rm r c tr sr g e g' Hrun
                 | seed options w o w' _ IH Hrun
                 | a w o w' _ IH Hrun
                 | w g _ IH].
  - simpl. eapply init_not_ready; eassumption.
  - eapply reset_keeps_ready_inv; eassumption.
  - eapply step_keeps_ready_inv; eassumption.
  - exact IH.
Qed.

(** C5. In every reachable world whose agent has a location, a step
    with an action in {0,1,2,3} returns, and the agent position it
    leaves lies within [0, rows-1] x [0, cols-1] of the unchanged
    grid. *)
Theorem step_keeps_agent_in_grid (w : World) (a : Z) (al : ndarray) :
  reachable w ->
  agent_location (self w) = Some al ->
  0 <= a <= 3 ->
  exists out w' p',
    step a w = (Ret out, w') /\
    agent_location (self w') = Some (AVec p') /\
    row (self w') = row (self w) /\ col (self w') = col (self w) /\
    in_grid (row (self w')) (col (self w')) p'.
Proof.
  intros Hreach Hal Ha.
  destruct (reachable_ready_inv w Hreach al Hal) as [(p & -> & Hin) (ts & Hts)].
  pose proof (step_run w a p (unit_vector a) ts
                (action_lookup_valid a Ha) Hal Hts) as Hrun.
  cbv zeta in Hrun.
  eexists _, _, (moved_to (self w) p (unit_vector a)).
  split; [exact Hrun |]. simpl.
  destruct (shown_grid (set_agent_location
              (Some (AVec (moved_to (self w) p (unit_vector a)))) (self w)))
    as (-> & -> & _).
  rewrite shown_agent_location. simpl.
  repeat split; try reflexivity;
    destruct Hin as [Hin1 Hin2]; unfold moved_to, np_clip; simpl; lia.
Qed.

(** ** Rejection sampling of the targets *)

Lemma any_ne_pos (new t : Pos) : any_ (ne_pos new t) = true <-> new <> t.
Proof.
  destruct new as [a b], t as [c d]. unfold ne_pos, any_. simpl.
  destruct (Z.eqb_spec a c), (Z.eqb_spec b d); simpl;
    split; congruence.
Qed.

Lemma any_ne (ia : ndarray) (new : Pos) :
  any_ (ne ia new) = true <-> ia <> AVec new.
Proof.
  destruct ia as [| p]; unfold ne.
  - split; [discriminate | reflexivity].
  - rewrite any_ne_pos. split; congruence.
Qed.

Lemma all_ne_pos (new : Pos) (target : list Pos) :
  forallb (fun t => any_ (ne_pos new t)) target = true <-> ~ In new target.
Proof.
  rewrite forallb_forall. split.
  - intros Hall Hin. apply (proj1 (any_ne_pos new new) (Hall new Hin)).
    reflexivity.
  - intros Hnin t Hin. apply any_ne_pos. congruence.
Qed.

(** The loop, one iteration at a time, in terms of [randint]. *)
Lemma while_sample_eq
    (n r c : Z) (ia : ndarray) (target : list Pos) (g : RandomState) :
  while_sample n r c ia target g
  = if Z.of_nat (length target) <? n then
      (new <- randint r c ;;
       if forallb (fun t => any_ (ne_pos new t)) target && any_ (ne ia new)
       then while_sample n r c ia (target ++ [new])
       else while_sample n r c ia target) g
    else ret target g.
Proof.
  unfold bind, randint, ret.
  destruct g as [| w g']; cbn [while_sample];
    destruct (Z.of_nat (length target) <? n); try reflexivity;
    destruct (randint_rejects r c); try reflexivity.
  cbv zeta.
  destruct (forallb (fun t => any_ (ne_pos (randint_reduce r c w) t)) target
            && any_ (ne ia (randint_reduce r c w))); reflexivity.
Qed.

(** Whatever the loop returns extends the list it started from into a
    duplicate-free list of grid positions off the agent, of the
    requested length. *)
Lemma while_sample_sound (n r c : Z) (ia : ndarray) :
  forall (g : RandomState) (target ts : list Pos) (g' : RandomState),
    while_sample n r c ia target g = (Ret ts, g') ->
    NoDup target ->
    Forall (fun t => ia <> AVec t) target ->
    Forall (in_grid r c) target ->
    NoDup ts /\ Forall (fun t => ia <> AVec t) ts /\
    Forall (in_grid r c) ts /\
    Z.of_nat (length ts) = Z.max n (Z.of_nat (length target)).
Proof.
  induction g as [| w g IH]; intros target ts g' Hrun Hnd Hag Hin;
    cbn [while_sample] in Hrun; cbv zeta in Hrun;
    destruct (Z.ltb_spec (Z.of_nat (length target)) n) as [Hlt | Hge].
  - destruct (randint_rejects r c); discriminate.
  - injection Hrun as <- <-. repeat split; try assumption. lia.
  - destruct (randint_rejects r c) eqn:Hrej; [discriminate |].
    apply randint_accepts in Hrej.
    destruct (forallb (fun t => any_ (ne_pos (randint_reduce r c w) t)) target
              && any_ (ne ia (randint_reduce r c w))) eqn:Hacc.
    + apply andb_true_iff in Hacc as [Hnew Hoff].
      apply all_ne_pos in Hnew. apply any_ne in Hoff.
      apply IH in Hrun.
      * destruct Hrun as (H1 & H2 & H3 & Hlen).
        rewrite length_app in Hlen. simpl in Hlen.
        repeat split; try assumption. lia.
      * apply NoDup_app. split; [assumption |]. split.
        -- intros x Hx Hx'. apply list_elem_of_In in Hx.
           apply list_elem_of_In in Hx'. destruct Hx' as [<- | []].
           contradiction.
        -- apply NoDup_singleton.
      * apply Forall_app. split; [assumption |]. constructor; [assumption |].
        constructor.
      * apply Forall_app. split; [assumption |]. constructor; [| constructor].
        apply randint_reduce_in_grid; lia.
    + apply IH in Hrun; assumption.
  - injection Hrun as <- <-. repeat split; try assumption. lia.
Qed.

(** The loop returns as soon as the tape has offered enough distinct
    acceptable positions: if some duplicate-free list [l] of at least
    [n] positions off the agent is covered by the targets chosen so far
    and the draws still on the tape, the loop ends with a result. *)
Lemma while_sample_returns (n r c : Z) (ia : ndarray) (l : list Pos) :
  randint_rejects r c = false ->
  NoDup l ->
  n <= Z.of_nat (length l) ->
  forall (g : RandomState) (target : list Pos),
    (forall x, In x l ->
       ia <> AVec x /\ (In x target \/ In x (map (randint_reduce r c) g))) ->
    exists ts g', while_sample n r c ia target g = (Ret ts, g').
Proof.
  intros Hrej Hnd Hn.
  induction g as [| w g IH]; intros target Hcover;
    cbn [while_sample]; cbv zeta;
    destruct (Z.ltb_spec (Z.of_nat (length target)) n) as [Hlt | Hge];
    try (eexists _, _; reflexivity); rewrite Hrej.
  - exfalso.
    assert (l ⊆+ target) as Hsub.
    { apply NoDup_submseteq; [assumption |]. intros x Hx.
      apply list_elem_of_In. apply list_elem_of_In in Hx.
      destruct (Hcover x Hx) as [_ [Ht | []]]. exact Ht. }
    apply submseteq_length in Hsub. lia.
  - destruct (forallb (fun t => any_ (ne_pos (randint_reduce r c w) t)) target
              && any_ (ne ia (randint_reduce r c w))) eqn:Hacc.
    + apply IH. intros x Hx. destruct (Hcover x Hx) as [Hoff Hin].
      split; [assumption |]. rewrite in_app_iff. simpl in *. tauto.
    + apply IH. intros x Hx. destruct (Hcover x Hx) as [Hoff Hin].
      split; [assumption |].
      destruct Hin as [Ht | [<- | Hg]]; [tauto | | tauto].
      left. apply andb_false_iff in Hacc as [Hdup | Hag].
      * destruct (decide (randint_reduce r c w ∈ target)) as [Hi | Hni];
          [apply list_elem_of_In; assumption |].
        rewrite list_elem_of_In in Hni. apply all_ne_pos in Hni. congruence.
      * apply any_ne in Hoff. congruence.
Qed.

(** Sampled targets: in a constructed environment with a target count
    the targets are pairwise distinct grid positions, as many as asked
    for, and none is the explicit agent position, if there is one. *)
Lemma init_random_targets
    (al : option Pos) (n : Z) (rm : option string)
    (r c tr sr : Z) (g g' : RandomState) (e : GridWorldEnv) :
  __init__ al (TCount n) rm r c tr sr g = (Ret e, g') ->
  NoDup (init_target e) /\
  Z.of_nat (length (init_target e)) = Z.max n 0 /\
  Forall (in_grid r c) (init_target e) /\
  (forall p, al = Some p -> ~ In p (init_target e)).
Proof.
  intros Hrun. destruct (init_returns _ _ _ _ _ _ _ _ _ _ Hrun) as (ts & -> & Hts).
  simpl. apply while_sample_sound in Hts;
    [| constructor | constructor | constructor].
  destruct Hts as (Hnd & Hoff & Hin & Hlen).
  change (Z.of_nat (length (@nil Pos))) with 0 in Hlen.
  split; [assumption |]. split; [assumption |]. split; [assumption |].
  intros p -> Hp. rewrite Forall_forall in Hoff.
  apply list_elem_of_In in Hp. apply (Hoff p Hp). reflexivity.
Qed.

(** The constructor returns once the tape offers [n] distinct positions
    off the agent. *)
Lemma init_random_targets_returns
    (al : option Pos) (n : Z) (rm : option string)
    (r c tr sr : Z) (g : RandomState) (l : list Pos) :
  randint_rejects r c = false ->
  render_mode_ok rm ->
  NoDup l ->
  n <= Z.of_nat (length l) ->
  (forall x, In x l ->
     al <> Some x /\ In x (map (randint_reduce r c) g)) ->
  exists e g', __init__ al (TCount n) rm r c tr sr g = (Ret e, g').
Proof.
  intros Hrej Hrm Hnd Hn Hcover.
  destruct (while_sample_returns n r c (np_array al) l Hrej Hnd Hn g [])
    as (ts & g' & Hts).
  { intros x Hx. destruct (Hcover x Hx) as [Hoff Hin]. split; [| tauto].
    destruct al as [p |]; simpl; congruence. }
  apply randint_accepts in Hrej. destruct Hrej as [Hr Hc].
  rewrite init_run.
  destruct (Z.eqb_spec r 0) as [-> | _]; [lia |].
  rewrite (truediv_fits r c) by lia. rewrite Hts.
  rewrite (proj2 (box_accepts r c)) by tauto.
  rewrite (proj2 (render_mode_accepted_ok rm) Hrm).
  eexists _, _; reflexivity.
Qed.

(** C7 (amended). The constructor checks no position against the grid
    bounds: given an explicit target list, a grid of 1 to 2^63 rows and
    1 to 2^63 columns and a valid render mode, it succeeds for every
    agent position and every target position, inside the grid or not,
    stores them as given and draws nothing. *)
Theorem init_accepts_any_explicit_position
    (al : option Pos) (l : list Pos) (rm : option string)
    (r c tr sr : Z) (g : RandomState) :
  0 < r <= 2 ^ 63 -> 0 < c <= 2 ^ 63 -> render_mode_ok rm ->
  __init__ al (TExplicit l) rm r c tr sr g
  = (Ret {| row := r; col := c; init_agent := np_array al;
            init_target := l; term_reward := tr; step_reward := sr;
            render_mode := rm; window := false; clock := false;
            np_random := None; agent_location := None;
            target_location := None |}, g).
Proof.
  intros Hr Hc Hrm. rewrite init_run.
  destruct (Z.eqb_spec r 0) as [-> | _]; [lia |].
  rewrite (truediv_fits r c) by lia.
  rewrite (proj2 (box_accepts r c)) by tauto.
  rewrite (proj2 (render_mode_accepted_ok rm) Hrm). reflexivity.
Qed.

Lemma after_seed_accepted (seed : option Z) (e : GridWorldEnv) :
  seed_accepted seed -> exists e1, after_seed seed e = inr e1.
Proof.
  unfold seed_accepted, after_seed. destruct seed as [s |]; [| eauto].
  intros [gen ->]. eauto.
Qed.

Lemma randint_rejects_false (rows cols : Z) :
  0 < rows <= 2 ^ 63 -> 0 < cols <= 2 ^ 63 ->
  randint_rejects rows cols = false.
Proof.
  intros Hr Hc. unfold randint_rejects.
  repeat (apply orb_false_iff; split);
    first [apply Z.leb_gt | apply Z.ltb_ge]; lia.
Qed.

Lemma placed_fields (p : Pos) (e : GridWorldEnv) :
  row (placed p e) = row e /\ col (placed p e) = col e /\
  init_agent (placed p e) = init_agent e /\
  init_target (placed p e) = init_target e /\
  agent_location (placed p e) = Some (AVec p) /\
  target_location (placed p e) = Some (init_target e).
Proof.
  unfold placed.
  rewrite shown_agent_location, shown_target_location.
  destruct (shown_grid (set_target_location (Some (init_target e))
              (set_agent_location (Some (AVec p)) e))) as (-> & -> & -> & ->).
  simpl. tauto.
Qed.

(** Two successive resets of an environment with a random agent both
    return the set [init_target], and each takes exactly one draw. *)
Lemma two_resets_run
    (seed1 seed2 : option Z) (options1 options2 : option (gmap string Z))
    (w : World) (r1 r2 : Z * Z) (g : RandomState) :
  init_agent (self w) = ANone ->
  seed_accepted seed1 -> seed_accepted seed2 ->
  0 < row (self w) <= 2 ^ 63 -> 0 < col (self w) <= 2 ^ 63 ->
  global_rng w = r1 :: r2 :: g ->
  exists p1 w1 p2 w2,
    reset seed1 options1 w
    = (Ret ((AVec p1, init_target (self w)), ∅), w1) /\
    reset seed2 options2 w1
    = (Ret ((AVec p2, init_target (self w)), ∅), w2) /\
    target_location (self w1) = Some (init_target (self w)) /\
    target_location (self w2) = Some (init_target (self w)) /\
    global_rng w1 = r2 :: g /\ global_rng w2 = g.
Proof.
  intros Hia Hs1 Hs2 Hr Hc Hg.
  pose proof (randint_rejects_false _ _ Hr Hc) as Hrej.
  destruct (after_seed_accepted seed1 (self w) Hs1) as [e1 He1].
  destruct (after_seed_fields _ _ _ He1) as (Hr1 & Hc1 & Hia1 & Hit1 & _).
  pose proof (reset_random_agent_run seed1 options1 w e1 r1 (r2 :: g)
                Hia He1 Hrej Hg) as Hrun1.
  cbv zeta in Hrun1.
  set (p1 := randint_reduce (row (self w)) (col (self w)) r1) in *.
  set (w1 := {| self := placed p1 e1; global_rng := r2 :: g |}) in *.
  destruct (placed_fields p1 e1) as (Hr2 & Hc2 & Hia2 & Hit2 & _ & Htl2).
  destruct (after_seed_accepted seed2 (self w1) Hs2) as [e2 He2].
  assert (init_agent (self w1) = ANone) as Hia' by (simpl; congruence).
  assert (randint_rejects (row (self w1)) (col (self w1)) = false) as Hrej'
    by (simpl; rewrite Hr2, Hc2, Hr1, Hc1; exact Hrej).
  pose proof (reset_random_agent_run seed2 options2 w1 e2 r2 g
                Hia' He2 Hrej' eq_refl) as Hrun2.
  cbv zeta in Hrun2.
  destruct (after_seed_fields _ _ _ He2) as (_ & _ & _ & Hit3 & _).
  destruct (placed_fields
              (randint_reduce (row (self w1)) (col (self w1)) r2) e2)
    as (_ & _ & _ & _ & _ & Htl3).
  assert (init_target (self w1) = init_target (self w)) as Hsame
    by (simpl; congruence).
  rewrite Hsame in Hrun2.
  eexists p1, w1, _, _. split; [exact Hrun1 |]. split; [exact Hrun2 |].
  split.
  { change (target_location (placed p1 e1) = Some (init_target (self w))).
    rewrite Htl2. congruence. }
  split.
  { change (target_location
              (placed (randint_reduce (row (self w1)) (col (self w1)) r2) e2)
            = Some (init_target (self w))).
    rewrite Htl3, Hit3, Hsame. reflexivity. }
  split; reflexivity.
Qed.


(** ** The seed and the result of [reset] *)

Lemma reset_run
    (seed : option Z) (options : option (gmap string Z)) (w : World)
    (e1 : GridWorldEnv) :
  after_seed seed (self w) = inr e1 ->
  reset seed options w
  = let stuck := {| self := e1; global_rng := global_rng w |} in
    match init_agent (self w) with
    | AVec _ => (Raise ValueError, stuck)
    | ANone =>
        if randint_rejects (row (self w)) (col (self w))
        then (Raise ValueError, stuck)
        else match global_rng w with
             | [] => (Starved, stuck)
             | r :: g' =>
                 let p := randint_reduce (row (self w)) (col (self w)) r in
                 (Ret ((AVec p, init_target (self w)), ∅),
                  {| self := placed p e1; global_rng := g' |})
             end
    end.
Proof.
  intros Hs.
  destruct (after_seed_fields _ _ _ Hs) as (Hr & Hc & Hia & _).
  destruct (init_agent (self w)) as [| p] eqn:Hag.
  - destruct (randint_rejects (row (self w)) (col (self w))) eqn:Hrej;
      [| destruct (global_rng w) as [| r g'] eqn:Hg].
    + unfold reset. unfold bind at 1. rewrite super_reset_run, Hs.
      cbv [bind get_self self]. rewrite Hia. simpl.
      unfold np_random_randint, randint. simpl. rewrite Hr, Hc, Hrej.
      reflexivity.
    + unfold reset. unfold bind at 1. rewrite super_reset_run, Hs.
      cbv [bind get_self self]. rewrite Hia. simpl.
      unfold np_random_randint, randint. simpl. rewrite Hr, Hc, Hrej, Hg.
      reflexivity.
    + apply reset_random_agent_run; assumption.
  - unfold reset. unfold bind at 1. rewrite super_reset_run, Hs.
    cbv [bind get_self self]. rewrite Hia. reflexivity.
Qed.

(** The seed passed to [reset] reaches the environment's own generator
    only; the returned observation and the draws taken from the
    process-wide generator are the same for every accepted seed. *)
Lemma reset_outcome_ignores_seed
    (seed1 seed2 : option Z) (options1 options2 : option (gmap string Z))
    (w : World) :
  seed_accepted seed1 -> seed_accepted seed2 ->
  fst (reset seed1 options1 w) = fst (reset seed2 options2 w) /\
  global_rng (snd (reset seed1 options1 w))
  = global_rng (snd (reset seed2 options2 w)).
Proof.
  intros Hs1 Hs2.
  destruct (after_seed_accepted seed1 (self w) Hs1) as [e1 He1].
  destruct (after_seed_accepted seed2 (self w) Hs2) as [e2 He2].
  rewrite (reset_run seed1 options1 w e1 He1).
  rewrite (reset_run seed2 options2 w e2 He2).
  cbv zeta.
  destruct (init_agent (self w)); [| split; reflexivity].
  destruct (randint_rejects (row (self w)) (col (self w)));
    [split; reflexivity |].
  destruct (global_rng w); split; reflexivity.
Qed.

Lemma reset_keeps_configuration
    (e : GridWorldEnv) (seed : option Z) (options : option (gmap string Z))
    (w w' : World) (o : outcome (observation * info)) :
  configured_as e w -> reset seed options w = (o, w') -> configured_as e w'.
Proof.
  unfold configured_as. intros Hcfg Hrun.
  destruct (after_seed seed (self w)) as [ex | e1] eqn:Hs.
  - unfold reset in Hrun. unfold bind at 1 in Hrun.
    rewrite super_reset_run, Hs in Hrun. injection Hrun as _ <-. exact Hcfg.
  - destruct (after_seed_fields _ _ _ Hs) as (Hr & Hc & Hia & Hit & _).
    assert (row e1 = row e /\ col e1 = col e /\
            init_agent e1 = init_agent e /\ init_target e1 = init_target e)
      as Hcfg1 by (repeat split; destruct Hcfg as (? & ? & ? & ?); congruence).
    rewrite (reset_run seed options w e1 Hs) in Hrun. cbv zeta in Hrun.
    destruct (init_agent (self w));
      [| injection Hrun as _ <-; exact Hcfg1].
    destruct (randint_rejects (row (self w)) (col (self w)));
      [injection Hrun as _ <-; exact Hcfg1 |].
    destruct (global_rng w) as [| d g'];
      injection Hrun as _ <-; [exact Hcfg1 |].
    simpl.
    destruct (placed_fields
                (randint_reduce (row (self w)) (col (self w)) d) e1)
      as (-> & -> & -> & -> & _).
    exact Hcfg1.
Qed.

(** C6 (amended). For an environment built without an explicit agent
    position, the target set is materialized once, in the constructor:
    stored as given for an explicit list, sampled there by the
    rejection rule for a count.  Every reset of that environment with
    an accepted seed and a draw at hand installs and returns that same
    set, so two successive resets return the same targets, and each
    takes one draw only, the agent's. *)
Theorem resets_reuse_constructor_targets
    (tl : target_spec) (rm : option string) (r c tr sr : Z)
    (g0 g1 : RandomState) (e : GridWorldEnv)
    (seed1 seed2 : option Z) (options1 options2 : option (gmap string Z))
    (w : World) (r1 r2 : Z * Z) (g : RandomState) :
  __init__ None tl rm r c tr sr g0 = (Ret e, g1) ->
  configured_as e w ->
  seed_accepted seed1 -> seed_accepted seed2 ->
  global_rng w = r1 :: r2 :: g ->
  match tl with
  | TExplicit l => init_target e = l /\ g1 = g0
  | TCount n => while_sample n r c ANone [] g0 = (Ret (init_target e), g1)
  end /\
  exists p1 w1 p2 w2,
    reset seed1 options1 w = (Ret ((AVec p1, init_target e), ∅), w1) /\
    reset seed2 options2 w1 = (Ret ((AVec p2, init_target e), ∅), w2) /\
    target_location (self w1) = Some (init_target e) /\
    target_location (self w2) = Some (init_target e) /\
    configured_as e w1 /\ configured_as e w2 /\
    global_rng w1 = r2 :: g /\ global_rng w2 = g.
Proof.
  intros Hinit Hcfg Hs1 Hs2 Hg.
  destruct (init_returns _ _ _ _ _ _ _ _ _ _ Hinit) as (ts & He & Hts).
  destruct (init_returns_checks _ _ _ _ _ _ _ _ _ _ Hinit) as (_ & Hbox & _).
  apply box_accepts in Hbox. destruct Hbox as [Hr Hc].
  assert (row e = r /\ col e = c /\ init_agent e = ANone /\ init_target e = ts)
    as (Hre & Hce & Hie & Hte) by (subst e; simpl; tauto).
  split.
  { rewrite Hte. destruct tl; exact Hts. }
  destruct Hcfg as (Hrw & Hcw & Hiw & Htw).
  destruct (two_resets_run seed1 seed2 options1 options2 w r1 r2 g)
    as (p1 & w1 & p2 & w2 & Hrun1 & Hrun2 & Ht1 & Ht2 & Hg1 & Hg2);
    try assumption; try congruence.
  rewrite Htw in Hrun1, Hrun2, Ht1, Ht2.
  assert (configured_as e w) as Hcfg by (unfold configured_as; tauto).
  pose proof (reset_keeps_configuration e _ _ _ _ _ Hcfg Hrun1) as Hcfg1.
  pose proof (reset_keeps_configuration e _ _ _ _ _ Hcfg1 Hrun2) as Hcfg2.
  exists p1, w1, p2, w2. tauto.
Qed.

(** ** Further properties of [step] *)

Lemma shown_same_setup (e : GridWorldEnv) : same_setup e (shown e).
Proof.
  unfold same_setup, shown, render_effect.
  destruct e as [? ? ? ? ? ? rm wi cl ? ? ?]. simpl.
  destruct (is_human rm) eqn:Hh; [| tauto].
  destruct wi, cl; simpl; rewrite ?Hh; simpl; tauto.
Qed.

Lemma shown_display (e : GridWorldEnv) :
  window (shown e) = window e || is_human (render_mode e) /\
  clock (shown e) = clock e || is_human (render_mode e).
Proof.
  unfold shown, render_effect.
  destruct e as [? ? ? ? ? ? rm wi cl ? ? ?]. simpl.
  destruct (is_human rm) eqn:Hh; [| rewrite !orb_false_r; tauto].
  destruct wi, cl; simpl; rewrite ?Hh; simpl; tauto.
Qed.

(** A step on an instance that was never reset: the action is looked
    up, then reading the agent's location raises [AttributeError], and
    nothing has changed. *)
Theorem step_before_reset_raises (w : World) (a : Z) :
  agent_location (self w) = None ->
  0 <= a <= 3 ->
  step a w = (Raise AttributeError, w).
Proof.
  intros Hal Ha. unfold step, dict_getitem.
  rewrite (action_lookup_valid a Ha).
  cbv [bind ret getattr]. rewrite Hal. reflexivity.
Qed.

(** Whatever the action and whatever the outcome, [step] leaves the
    grid, the constructor's agent and targets, the rewards, the render
    mode, the environment's generator and the targets in place as they
    were, and takes no draw from the process-wide generator. *)
Theorem step_only_moves_agent (w : World) (a : Z) :
  same_setup (self w) (self (snd (step a w))) /\
  global_rng (snd (step a w)) = global_rng w.
Proof.
  assert (same_setup (self w) (self w)) as Hrefl
    by (unfold same_setup; tauto).
  destruct (_action_to_direction !! a) as [d |] eqn:Hd.
  - destruct (agent_location (self w)) as [[| p] |] eqn:Hal.
    + unfold step, dict_getitem. rewrite Hd.
      cbv [bind ret getattr lift ndarray_add raise]. rewrite Hal.
      simpl. tauto.
    + destruct (target_location (self w)) as [ts |] eqn:Hts.
      * rewrite (step_run w a p d ts Hd Hal Hts). simpl. split; [| reflexivity].
        pose proof (shown_same_setup (set_agent_location
                      (Some (AVec (moved_to (self w) p d))) (self w))) as Hs.
        unfold same_setup in *. simpl in Hs. tauto.
      * destruct w as [e g]. simpl in *.
        unfold step, dict_getitem. rewrite Hd.
        cbv [bind ret getattr lift get_self modify_self ndarray_add
             self global_rng].
        rewrite Hal. simpl. rewrite Hts. simpl.
        unfold same_setup. simpl. tauto.
    + unfold step, dict_getitem. rewrite Hd.
      cbv [bind ret getattr]. rewrite Hal. simpl. tauto.
  - unfold step, dict_getitem. rewrite Hd. simpl. tauto.
Qed.

Lemma unit_vector_cases (a : Z) :
  0 <= a <= 3 ->
  (a = 0 /\ unit_vector a = (0, 1) /\ (a + 2) mod 4 = 2) \/
  (a = 1 /\ unit_vector a = (-1, 0) /\ (a + 2) mod 4 = 3) \/
  (a = 2 /\ unit_vector a = (0, -1) /\ (a + 2) mod 4 = 0) \/
  (a = 3 /\ unit_vector a = (1, 0) /\ (a + 2) mod 4 = 1).
Proof.
  intros Ha.
  assert (a = 0 \/ a = 1 \/ a = 2 \/ a = 3) as [-> | [-> | [-> | ->]]] by lia;
    [left | right; left | right; right; left | right; right; right];
    repeat split; reflexivity.
Qed.

(** Walls: from a cell of the grid, a step moves the agent to the
    neighbouring cell in the direction of the action when that cell is
    on the grid, and leaves the agent where it is when it is not. *)
Theorem step_moves_or_stays
    (w : World) (a : Z) (p : Pos) (ts : list Pos) :
  agent_location (self w) = Some (AVec p) ->
  target_location (self w) = Some ts ->
  0 <= a <= 3 ->
  in_grid (row (self w)) (col (self w)) p ->
  interior64 p ->
  exists out w',
    step a w = (Ret out, w') /\
    let q := (fst p + fst (unit_vector a), snd p + snd (unit_vector a)) in
    (in_grid (row (self w)) (col (self w)) q ->
     agent_location (self w') = Some (AVec q)) /\
    (~ in_grid (row (self w)) (col (self w)) q ->
     agent_location (self w') = Some (AVec p)).
Proof.
  intros Hp Ht Ha [Hg1 Hg2] [Hp1 Hp2].
  pose proof (step_run w a p (unit_vector a) ts
                (action_lookup_valid a Ha) Hp Ht) as Hrun.
  cbv zeta in Hrun.
  eexists _, _. split; [exact Hrun |]. cbv zeta. simpl self.
  rewrite shown_agent_location. simpl agent_location.
  unfold moved_to, np_clip, in_grid. cbn [fst snd].
  destruct p as [pr pc]. cbn [fst snd] in *.
  destruct (unit_vector_cases a Ha)
    as [(_ & -> & _) | [(_ & -> & _) | [(_ & -> & _) | (_ & -> & _)]]];
    cbn [fst snd];
    rewrite !wrap64_id by lia;
    (split; intros Hq; do 2 f_equal; f_equal; lia).
Qed.

(** Round trip: when the neighbouring cell in the direction of an
    action is on the grid, that step followed by the step of the
    opposite action (right/left, up/down) brings the agent back. *)
Theorem step_then_opposite_returns
    (w : World) (a : Z) (p : Pos) (ts : list Pos) :
  agent_location (self w) = Some (AVec p) ->
  target_location (self w) = Some ts ->
  0 <= a <= 3 ->
  in_grid (row (self w)) (col (self w)) p ->
  in_grid (row (self w)) (col (self w))
    (fst p + fst (unit_vector a), snd p + snd (unit_vector a)) ->
  interior64 p ->
  exists out1 w1 out2 w2,
    step a w = (Ret out1, w1) /\
    step ((a + 2) mod 4) w1 = (Ret out2, w2) /\
    agent_location (self w2) = Some (AVec p).
Proof.
  intros Hp Ht Ha [Hg1 Hg2] [Hq1 Hq2] [Hp1 Hp2].
  pose proof (step_run w a p (unit_vector a) ts
                (action_lookup_valid a Ha) Hp Ht) as Hrun1.
  cbv zeta in Hrun1.
  set (p1 := moved_to (self w) p (unit_vector a)) in *.
  set (e1 := shown (set_agent_location (Some (AVec p1)) (self w))) in *.
  set (w1 := {| self := e1; global_rng := global_rng w |}) in *.
  assert (0 <= (a + 2) mod 4 <= 3) as Hb
    by (pose proof (Z.mod_pos_bound (a + 2) 4); lia).
  assert (agent_location (self w1) = Some (AVec p1)) as Hp1'
    by (simpl; unfold e1; rewrite shown_agent_location; reflexivity).
  assert (target_location (self w1) = Some ts) as Ht1
    by (simpl; unfold e1; rewrite shown_target_location; exact Ht).
  pose proof (step_run w1 ((a + 2) mod 4) p1 (unit_vector ((a + 2) mod 4)) ts
                (action_lookup_valid _ Hb) Hp1' Ht1) as Hrun2.
  cbv zeta in Hrun2.
  eexists _, w1, _, _. split; [exact Hrun1 |]. split; [exact Hrun2 |].
  simpl self. rewrite shown_agent_location. simpl agent_location.
  destruct (shown_grid (set_agent_location (Some (AVec p1)) (self w)))
    as (Hr & Hc & _).
  unfold moved_to. fold e1 in Hr, Hc. rewrite Hr, Hc. simpl row. simpl col.
  unfold p1, moved_to, np_clip. cbn [fst snd].
  destruct p as [pr pc]. cbn [fst snd] in *.
  destruct (unit_vector_cases a Ha)
    as [(_ & Hu & ->) | [(_ & Hu & ->) | [(_ & Hu & ->) | (_ & Hu & ->)]]];
    rewrite Hu in *;
    change (unit_vector 0) with (0, 1);
    change (unit_vector 1) with (-1, 0);
    change (unit_vector 2) with (0, -1);
    change (unit_vector 3) with (1, 0);
    cbn [fst snd] in *;
    repeat match goal with
           | |- context [wrap64 ?x] => rewrite (wrap64_id x) by lia
           end;
    do 2 f_equal; f_equal; lia.
Qed.

(** ** Further properties of [reset] *)

(** A seed the seeding refuses: [reset] raises the seeding's exception
    before anything else happens; the instance and the process-wide
    generator are untouched. *)
Theorem reset_refused_seed_keeps_state
    (s : Z) (ex : exn) (options : option (gmap string Z)) (w : World) :
  seeding_np_random s = inl ex ->
  reset (Some s) options w = (Raise ex, w).
Proof.
  intros Hs. unfold reset. unfold bind at 1. rewrite super_reset_run.
  unfold after_seed. rewrite Hs. reflexivity.
Qed.

(** With a random agent, an accepted seed, a grid [randint] accepts and
    a draw available, [reset] returns; the agent it places and reports
    is a cell of the grid, and one draw is gone. *)
Theorem reset_places_agent_in_grid
    (seed : option Z) (options : option (gmap string Z)) (w : World)
    (r : Z * Z) (g' : RandomState) :
  init_agent (self w) = ANone ->
  seed_accepted seed ->
  0 < row (self w) <= 2 ^ 63 -> 0 < col (self w) <= 2 ^ 63 ->
  global_rng w = r :: g' ->
  exists p w',
    reset seed options w = (Ret ((AVec p, init_target (self w)), ∅), w') /\
    in_grid (row (self w)) (col (self w)) p /\
    agent_location (self w') = Some (AVec p) /\
    row (self w') = row (self w) /\ col (self w') = col (self w) /\
    global_rng w' = g'.
Proof.
  intros Hia Hs Hr Hc Hg.
  destruct (after_seed_accepted seed (self w) Hs) as [e1 He1].
  destruct (after_seed_fields _ _ _ He1) as (Hr1 & Hc1 & _).
  pose proof (reset_random_agent_run seed options w e1 r g' Hia He1
                (randint_rejects_false _ _ Hr Hc) Hg) as Hrun.
  cbv zeta in Hrun.
  destruct (placed_fields
              (randint_reduce (row (self w)) (col (self w)) r) e1)
    as (Hr2 & Hc2 & _ & _ & Hal & _).
  eexists _, _. split; [exact Hrun |].
  split; [apply randint_reduce_in_grid; lia |].
  simpl. rewrite Hal, Hr2, Hc2. repeat split; congruence.
Qed.

(** ** The life cycle of an instance *)

Lemma after_seed_same (seed : option Z) (e e1 : GridWorldEnv) :
  after_seed seed e = inr e1 ->
  e1 = e \/ exists gen, e1 = set_np_random (Some gen) e.
Proof.
  unfold after_seed. destruct seed as [s |].
  - destruct (seeding_np_random s) as [| gen]; [discriminate |].
    intros [= <-]. right. eauto.
  - intros [= <-]. left. reflexivity.
Qed.

Lemma ready_shown (e : GridWorldEnv) :
  (exists p, agent_location e = Some (AVec p) /\
             in_grid (row e) (col e) p) ->
  target_location e = Some (init_target e) ->
  init_agent e = ANone ->
  (window e = false /\ clock e = false) \/
  (window e = is_human (render_mode e) /\
   clock e = is_human (render_mode e)) ->
  ready (shown e).
Proof.
  intros (p & Hp & Hin) Ht Hia Hdisp. unfold ready.
  destruct (shown_same_setup e)
    as (Hr & Hc & Hia' & Hit & _ & _ & Hrm & _ & Htl).
  destruct (shown_display e) as [Hw Hcl].
  rewrite shown_agent_location, Hr, Hc, Htl, Hit, Hia', Hrm, Hw, Hcl.
  split; [eauto |]. split; [assumption |]. split; [assumption |].
  destruct Hdisp as [[-> ->] | [-> ->]];
    destruct (is_human (render_mode e)); split; reflexivity.
Qed.

Lemma lifecycle_after_seed (seed : option Z) (e e1 : GridWorldEnv) :
  after_seed seed e = inr e1 ->
  uninitialized e \/ ready e -> uninitialized e1 \/ ready e1.
Proof.
  intros Hs Hl. destruct (after_seed_same _ _ _ Hs) as [-> | [gen ->]];
    [exact Hl | exact Hl].
Qed.

Lemma reset_keeps_lifecycle
    (seed : option Z) (options : option (gmap string Z))
    (w w' : World) (o : outcome (observation * info)) :
  uninitialized (self w) \/ ready (self w) ->
  reset seed options w = (o, w') ->
  uninitialized (self w') \/ ready (self w').
Proof.
  intros Hl Hrun.
  destruct (after_seed seed (self w)) as [ex | e1] eqn:Hs.
  - unfold reset in Hrun. unfold bind at 1 in Hrun.
    rewrite super_reset_run, Hs in Hrun. injection Hrun as _ <-. exact Hl.
  - pose proof (lifecycle_after_seed _ _ _ Hs Hl) as Hl1.
    destruct (after_seed_fields _ _ _ Hs) as (Hr & Hc & Hia & Hit & _).
    rewrite (reset_run seed options w e1 Hs) in Hrun. cbv zeta in Hrun.
    destruct (init_agent (self w)) eqn:Hag;
      [| injection Hrun as _ <-; exact Hl1].
    destruct (randint_rejects (row (self w)) (col (self w))) eqn:Hrej;
      [injection Hrun as _ <-; exact Hl1 |].
    destruct (global_rng w) as [| r g'];
      injection Hrun as _ <-; [exact Hl1 |].
    right. simpl. unfold placed. apply ready_shown; simpl.
    + eexists. split; [reflexivity |]. rewrite Hr, Hc.
      apply randint_accepts in Hrej. apply randint_reduce_in_grid; lia.
    + reflexivity.
    + congruence.
    + destruct Hl1 as [(_ & _ & Hw & Hcl) | (_ & _ & _ & Hw & Hcl)]; tauto.
Qed.

Lemma step_keeps_lifecycle
    (a : Z) (w w' : World)
    (o : outcome (observation * Z * bool * bool * info)) :
  uninitialized (self w) \/ ready (self w) ->
  step a w = (o, w') ->
  uninitialized (self w') \/ ready (self w').
Proof.
  intros Hl Hrun.
  destruct (_action_to_direction !! a) as [d |] eqn:Hd.
  - destruct Hl as [Hu | Hrd].
    + destruct Hu as (Hal & Hrest).
      unfold step, dict_getitem in Hrun. rewrite Hd in Hrun.
      cbv [bind ret getattr] in Hrun. rewrite Hal in Hrun.
      injection Hrun as _ <-. left. split; assumption.
    + destruct Hrd as ((p & Hal & Hin) & Htl & Hia & Hw & Hcl).
      rewrite (step_run w a p d _ Hd Hal Htl) in Hrun.
      injection Hrun as _ <-. right. simpl. apply ready_shown; simpl.
      * eexists. split; [reflexivity |]. destruct Hin as [Hi1 Hi2].
        unfold moved_to. apply np_clip_in_grid; lia.
      * assumption.
      * assumption.
      * tauto.
  - unfold step, dict_getitem in Hrun. rewrite Hd in Hrun.
    injection Hrun as _ <-. exact Hl.
Qed.

(** Every instance a program can bring about is in one of two states.
    Either it was never successfully reset: it has no agent location,
    no targets in place and no display.  Or it is ready: the agent is
    on a cell of the grid, the targets in place are the constructor's,
    the agent position was not given explicitly, and the window and the
    clock exist exactly when the render mode is human. *)
Theorem reachable_uninitialized_or_ready (w : World) :
  reachable w -> uninitialized (self w) \/ ready (self w).
Proof.
  induction 1 as [al tl rm r c tr sr g e g' Hrun
                 | seed options w o w' _ IH Hrun
                 | a w o w' _ IH Hrun
                 | w g _ IH].
  - destruct (init_returns _ _ _ _ _ _ _ _ _ _ Hrun) as (ts & -> & _).
    left. unfold uninitialized. simpl. tauto.
  - eapply reset_keeps_lifecycle; eassumption.
  - eapply step_keeps_lifecycle; eassumption.
  - exact IH.
Qed.

(** ** Further properties of the constructor *)

(** The loop consumes a prefix of the tape, and every position it adds
    is one of the draws of that prefix. *)
Lemma while_sample_draws (n r c : Z) (ia : ndarray) :
  forall (g : RandomState) (target ts : list Pos) (g' : RandomState),
    while_sample n r c ia target g = (Ret ts, g') ->
    exists used,
      g = used ++ g' /\
      forall t, In t ts ->
        In t target \/ In t (map (randint_reduce r c) used).
Proof.
  induction g as [| w g IH]; intros target ts g' Hrun;
    cbn [while_sample] in Hrun; cbv zeta in Hrun;
    destruct (Z.of_nat (length target) <? n).
  - destruct (randint_rejects r c); discriminate.
  - injection Hrun as <- <-. exists []. split; [reflexivity | tauto].
  - destruct (randint_rejects r c); [discriminate |].
    destruct (forallb (fun t => any_ (ne_pos (randint_reduce r c w) t)) target
              && any_ (ne ia (randint_reduce r c w))).
    + destruct (IH _ _ _ Hrun) as (used & -> & Hin).
      exists (w :: used). split; [reflexivity |].
      intros t Ht. destruct (Hin t Ht) as [Hold | Hnew].
      * apply in_app_iff in Hold as [Hold | [<- | []]]; simpl; tauto.
      * simpl; tauto.
    + destruct (IH _ _ _ Hrun) as (used & -> & Hin).
      exists (w :: used). split; [reflexivity |].
      intros t Ht. destruct (Hin t Ht); simpl; tauto.
  - injection Hrun as <- <-. exists []. split; [reflexivity | tauto].
Qed.



(** Sampling the targets: when the draws on the tape offer [n] distinct
    positions off the explicit agent, the constructor returns; the
    targets it stores are pairwise distinct cells of the grid, [n] of
    them (none for a negative [n]), none is the explicit agent position,
    and each was drawn from the consumed part of the tape. *)
Theorem init_samples_distinct_targets
    (al : option Pos) (n : Z) (rm : option string)
    (r c tr sr : Z) (g : RandomState) (l : list Pos) :
  0 < r <= 2 ^ 63 -> 0 < c <= 2 ^ 63 ->
  render_mode_ok rm ->
  NoDup l ->
  n <= Z.of_nat (length l) ->
  (forall x, In x l ->
     al <> Some x /\ In x (map (randint_reduce r c) g)) ->
  exists e used g',
    __init__ al (TCount n) rm r c tr sr g = (Ret e, g') /\
    g = used ++ g' /\
    NoDup (init_target e) /\
    Z.of_nat (length (init_target e)) = Z.max n 0 /\
    Forall (in_grid r c) (init_target e) /\
    (forall p, al = Some p -> ~ In p (init_target e)) /\
    (forall t, In t (init_target e) ->
       In t (map (randint_reduce r c) used)).
Proof.
  intros Hr Hc Hrm Hnd Hn Hcover.
  destruct (init_random_targets_returns al n rm r c tr sr g l
              (randint_rejects_false _ _ Hr Hc) Hrm Hnd Hn Hcover)
    as (e & g' & Hrun).
  destruct (init_random_targets _ _ _ _ _ _ _ _ _ _ Hrun)
    as (H1 & H2 & H3 & H4).
  destruct (init_returns _ _ _ _ _ _ _ _ _ _ Hrun) as (ts & He & Hts).
  destruct (while_sample_draws _ _ _ _ _ _ _ _ Hts) as (used & Hg & Hin).
  exists e, used, g'. repeat split; try assumption.
  intros t Ht. subst e. simpl in Ht. destruct (Hin t Ht) as [[] | Hu].
  exact Hu.
Qed.


(** A target count of zero or less, on a grid of 1 to 2^63 rows and
    columns with a valid render mode: the constructor returns an
    environment without targets and takes no draw. *)
Theorem init_nonpositive_count_no_targets
    (al : option Pos) (n : Z) (rm : option string)
    (r c tr sr : Z) (g : RandomState) :
  n <= 0 -> 0 < r <= 2 ^ 63 -> 0 < c <= 2 ^ 63 -> render_mode_ok rm ->
  __init__ al (TCount n) rm r c tr sr g
  = (Ret {| row := r; col := c; init_agent := np_array al;
            init_target := []; term_reward := tr; step_reward := sr;
            render_mode := rm; window := false; clock := false;
            np_random := None; agent_location := None;
            target_location := None |}, g).
Proof.
  intros Hn Hr Hc Hrm. rewrite init_run.
  destruct (Z.eqb_spec r 0) as [-> | _]; [lia |].
  rewrite (truediv_fits r c) by lia.
  assert (while_sample n r c (np_array al) [] g = (Ret [], g)) as ->.
  { destruct g; cbn [while_sample];
      destruct (Z.ltb_spec (Z.of_nat (length (@nil Pos))) n) as [Hlt | _];
      try reflexivity; simpl in Hlt; lia. }
  rewrite (proj2 (box_accepts r c)) by tauto.
  rewrite (proj2 (render_mode_accepted_ok rm) Hrm). reflexivity.
Qed.

(** What a successful construction implies: the row count is not zero
    and the render mode is absent or one of the two known ones; the
    environment carries the arguments as given, has no generator of its
    own yet and is uninitialized; with explicit targets no draw was
    taken. *)
Theorem init_returns_only_valid
    (al : option Pos) (tl : target_spec) (rm : option string)
    (r c tr sr : Z) (g g' : RandomState) (e : GridWorldEnv) :
  __init__ al tl rm r c tr sr g = (Ret e, g') ->
  r <> 0 /\ render_mode_ok rm /\
  row e = r /\ col e = c /\ init_agent e = np_array al /\
  term_reward e = tr /\ step_reward e = sr /\ render_mode e = rm /\
  np_random e = None /\ uninitialized e /\
  match tl with
  | TExplicit l => init_target e = l /\ g' = g
  | TCount _ => True
  end.
Proof.
  intros Hrun.
  destruct (init_returns _ _ _ _ _ _ _ _ _ _ Hrun) as (ts & He & Hts).
  destruct (init_returns_checks _ _ _ _ _ _ _ _ _ _ Hrun) as (Hr & _ & Hm).
  apply render_mode_accepted_ok in Hm. rename Hm into Hrm.
  subst e. unfold uninitialized. simpl.
  repeat split; try assumption.
  destruct tl; [exact I | assumption].
Qed.

(** ** Explicit agents and seeds, in general *)

(** With an explicit agent position [reset] never places the agent: for
    every position, seed and options it raises, [ValueError] whenever
    the seed is accepted, and leaves the locations and the process-wide
    generator as they were. *)
Theorem reset_never_places_explicit_agent
    (seed : option Z) (options : option (gmap string Z)) (w : World) (p : Pos) :
  init_agent (self w) = AVec p ->
  exists ex w',
    reset seed options w = (Raise ex, w') /\
    (seed_accepted seed -> ex = ValueError) /\
    agent_location (self w') = agent_location (self w) /\
    target_location (self w') = target_location (self w) /\
    global_rng w' = global_rng w.
Proof.
  intros Hp.
  destruct (after_seed seed (self w)) as [ex | e1] eqn:Hs.
  - exists ex, w. unfold reset. unfold bind at 1.
    rewrite super_reset_run, Hs. repeat split.
    intros Hacc. destruct (after_seed_accepted seed (self w) Hacc) as [e1 He1].
    congruence.
  - destruct (after_seed_fields _ _ _ Hs) as (_ & _ & _ & _ & _ & Hal & Htl).
    exists ValueError, {| self := e1; global_rng := global_rng w |}.
    rewrite (reset_run seed options w e1 Hs), Hp. cbv zeta. simpl.
    repeat split; assumption.
Qed.

(** The seed passed to [reset] has no effect on what [reset] returns or
    on the draws it takes: any two accepted seeds give the same outcome
    and leave the process-wide generator in the same state. *)
Theorem reset_result_independent_of_seed
    (seed1 seed2 : option Z) (options : option (gmap string Z)) (w : World) :
  seed_accepted seed1 -> seed_accepted seed2 ->
  fst (reset seed1 options w) = fst (reset seed2 options w) /\
  global_rng (snd (reset seed1 options w))
  = global_rng (snd (reset seed2 options w)).
Proof.
  intros Hs1 Hs2. apply reset_outcome_ignores_seed; assumption.
Qed.

(** ** The grid of a reachable world *)

Lemma reset_same_grid
    (seed : option Z) (options : option (gmap string Z))
    (w w' : World) (o : outcome (observation * info)) :
  reset seed options w = (o, w') ->
  row (self w') = row (self w) /\ col (self w') = col (self w).
Proof.
  intros Hrun.
  assert (configured_as (self w) w) as Hcfg
    by (unfold configured_as; tauto).
  destruct (reset_keeps_configuration _ _ _ _ _ _ Hcfg Hrun) as (? & ? & _).
  tauto.
Qed.

Lemma step_same_grid
    (a : Z) (w w' : World)
    (o : outcome (observation * Z * bool * bool * info)) :
  step a w = (o, w') ->
  row (self w') = row (self w) /\ col (self w') = col (self w).
Proof.
  intros Hrun.
  destruct (_action_to_direction !! a) as [d |] eqn:Hd.
  - destruct (agent_location (self w)) as [[| p] |] eqn:Hal.
    + unfold step, dict_getitem in Hrun. rewrite Hd in Hrun.
      cbv [bind ret getattr lift ndarray_add raise] in Hrun.
      rewrite Hal in Hrun. injection Hrun as _ <-. tauto.
    + destruct (target_location (self w)) as [ts |] eqn:Hts.
      * rewrite (step_run w a p d ts Hd Hal Hts) in Hrun.
        injection Hrun as _ <-. simpl.
        destruct (shown_grid (set_agent_location
                    (Some (AVec (moved_to (self w) p d))) (self w)))
          as (-> & -> & _).
        simpl. tauto.
      * destruct w as [e g]. simpl in *.
        unfold step, dict_getitem in Hrun. rewrite Hd in Hrun.
        cbv [bind ret getattr lift get_self modify_self ndarray_add
             self global_rng] in Hrun.
        rewrite Hal in Hrun. simpl in Hrun. rewrite Hts in Hrun.
        injection Hrun as _ <-. simpl. tauto.
    + unfold step, dict_getitem in Hrun. rewrite Hd in Hrun.
      cbv [bind ret getattr] in Hrun. rewrite Hal in Hrun.
      injection Hrun as _ <-. tauto.
  - unfold step, dict_getitem in Hrun. rewrite Hd in Hrun.
    injection Hrun as _ <-. tauto.
Qed.

(** Every environment a program can bring about has between 1 and
    2^63 rows and between 1 and 2^63 columns: the constructor returns
    for no other grid, and neither [reset] nor [step] changes the grid.
    So the draw in [reset] never meets an empty range. *)
Theorem reachable_grid_bounds (w : World) :
  reachable w ->
  0 < row (self w) <= 2 ^ 63 /\ 0 < col (self w) <= 2 ^ 63 /\
  randint_rejects (row (self w)) (col (self w)) = false.
Proof.
  intros Hreach.
  assert (0 < row (self w) <= 2 ^ 63 /\ 0 < col (self w) <= 2 ^ 63) as Hb.
  { induction Hreach as [al tl rm r c tr sr g e g' Hrun
                        | seed options w o w' _ IH Hrun
                        | a w o w' _ IH Hrun
                        | w g _ IH].
    - destruct (init_returns _ _ _ _ _ _ _ _ _ _ Hrun) as (ts & -> & _).
      destruct (init_returns_checks _ _ _ _ _ _ _ _ _ _ Hrun) as (_ & Hbox & _).
      apply box_accepts in Hbox. exact Hbox.
    - destruct (reset_same_grid _ _ _ _ _ Hrun) as [-> ->]. exact IH.
    - destruct (step_same_grid _ _ _ _ Hrun) as [-> ->]. exact IH.
    - exact IH. }
  destruct Hb as [Hr Hc]. repeat split; try lia.
  apply randint_rejects_false; assumption.
Qed.

End Properties.

(** ** Worked examples *)

#[local] Existing Instance seeded_by.

Lemma world5_reachable :
  reachable (world5 (0, 0) [(2, 2)] []).
Proof.
  apply (reach_reset None None
           {| self := grid5 [(2, 2)]; global_rng := [(0, 0)] |}
           (Ret ((AVec (0, 0), [(2, 2)]), ∅))).
  - apply (reach_init None (TCount 1) None 5 5 1 0 [(2, 2); (0, 0)]).
    reflexivity.
  - reflexivity.
Qed.

(** C1. An environment built with the explicit agent position (0, 0):
    the constructor returns it, and [reset] raises [ValueError] instead
    of placing the agent; the agent has no location afterwards. *)
Theorem reset_with_explicit_agent_raises :
  __init__ (Some (0, 0)) (TExplicit [(2, 2)]) None 5 5 1 0 [(1, 1)]
  = (Ret explicit5, [(1, 1)]) /\
  reset None None {| self := explicit5; global_rng := [(1, 1)] |}
  = (Raise ValueError, {| self := explicit5; global_rng := [(1, 1)] |}) /\
  agent_location explicit5 = None.
Proof. repeat split. Qed.

(** C4. Two environments built the same way and reset with the same
    seed 7, one after the other in one process: the target sets and the
    agent positions differ, because every draw comes from the
    process-wide generator, which the seed does not touch. *)
Theorem same_seed_resets_differ :
  exists eA gA oA wA eB gB oB wB,
    __init__ None (TCount 1) None 5 5 1 0 [(0, 0); (2, 3); (1, 1); (4, 1)]
    = (Ret eA, gA) /\
    reset (Some 7) None {| self := eA; global_rng := gA |} = (Ret oA, wA) /\
    __init__ None (TCount 1) None 5 5 1 0 (global_rng wA) = (Ret eB, gB) /\
    reset (Some 7) None {| self := eB; global_rng := gB |} = (Ret oB, wB) /\
    oA = ((AVec (2, 3), [(0, 0)]), ∅) /\
    oB = ((AVec (4, 1), [(1, 1)]), ∅) /\
    oA <> oB.
Proof.
  eexists _, _, _, _, _, _, _, _.
  split; [lazy; reflexivity |]. split; [lazy; reflexivity |].
  split; [lazy; reflexivity |]. split; [lazy; reflexivity |].
  split; [reflexivity |]. split; [reflexivity |].
  intros [=].
Qed.

(** C8. The default construction, a random agent and one random target
    on the 5 x 5 grid: the target is sampled at (2, 2), and the reset
    that follows draws the agent onto that same cell. *)
Theorem random_agent_can_start_on_target :
  exists e g o w,
    1 <= 5 * 5 - 1 /\
    __init__ None (TCount 1) None 5 5 1 0 [(2, 2); (2, 2)] = (Ret e, g) /\
    init_target e = [(2, 2)] /\
    reset None None {| self := e; global_rng := g |} = (Ret o, w) /\
    agent_location (self w) = Some (AVec (2, 2)) /\
    target_location (self w) = Some [(2, 2)].
Proof.
  eexists _, _, _, _. split; [lia |].
  split; [lazy; reflexivity |]. split; [reflexivity |].
  split; [lazy; reflexivity |]. split; reflexivity.
Qed.

(** C6, as stated, fails.  The environment is built with one random
    target, sampled at (0, 0).  Two resets follow while the generator
    holds the draws (2, 3) and (4, 4): both install the constructor's
    set [(0, 0)], whereas rejection sampling on the draws pending at
    either reset gives [(2, 3)] and [(4, 4)]. *)
Lemma reset_does_not_redraw_targets :
  __init__ None (TCount 1) None 5 5 1 0 [(0, 0)]
  = (Ret (grid5 [(0, 0)]), []) /\
  reset None None {| self := grid5 [(0, 0)]; global_rng := [(2, 3); (4, 4)] |}
  = (Ret ((AVec (2, 3), [(0, 0)]), ∅), world5 (2, 3) [(0, 0)] [(4, 4)]) /\
  reset None None (world5 (2, 3) [(0, 0)] [(4, 4)])
  = (Ret ((AVec (4, 4), [(0, 0)]), ∅), world5 (4, 4) [(0, 0)] []) /\
  while_sample 1 5 5 ANone [] [(2, 3); (4, 4)] = (Ret [(2, 3)], [(4, 4)]) /\
  while_sample 1 5 5 ANone [] [(4, 4)] = (Ret [(4, 4)], []).
Proof. repeat split. Qed.

(** C7, as stated, fails.  On the 5 x 5 grid the agent position
    (10, 10) and the target (7, -3) are both outside the bounds, and
    the constructor returns an environment holding them. *)
Lemma init_accepts_out_of_grid_positions :
  ~ in_grid 5 5 (10, 10) /\ ~ in_grid 5 5 (7, -3) /\
  __init__ (Some (10, 10)) (TExplicit [(7, -3)]) None 5 5 1 0 []
  = (Ret {| row := 5; col := 5; init_agent := AVec (10, 10);
            init_target := [(7, -3)]; term_reward := 1; step_reward := 0;
            render_mode := None; window := false; clock := false;
            np_random := None; agent_location := None;
            target_location := None |}, []).
Proof.
  split; [unfold in_grid; simpl; lia |].
  split; [unfold in_grid; simpl; lia | reflexivity].
Qed.

(** ** The theorems at concrete inputs *)

(** The agent at (2, 1), the single target at (2, 2), action right. *)
Lemma step_terminated_iff_on_target_witness :
  agent_location (self (world5 (2, 1) [(2, 2)] [])) = Some (AVec (2, 1)) /\
  target_location (self (world5 (2, 1) [(2, 2)] [])) = Some [(2, 2)] /\
  0 <= 0 <= 3 /\
  exists (p' : Pos) (reward : Z) (terminated : bool) (w' : World),
    step 0 (world5 (2, 1) [(2, 2)] [])
    = (Ret ((AVec p', [(2, 2)]), reward, terminated, false, ∅), w') /\
    p' = (2, 2) /\
    agent_location (self w') = Some (AVec p') /\
    target_location (self w') = Some [(2, 2)] /\
    (terminated = true <-> In p' [(2, 2)]) /\
    reward = (if terminated then 1 else 0).
Proof.
  split; [reflexivity |]. split; [reflexivity |]. split; [lia |].
  apply (step_terminated_iff_on_target (world5 (2, 1) [(2, 2)] []) 0
           (2, 1) [(2, 2)]); [reflexivity | reflexivity | lia].
Defined.

(** From (0, 0) on the 5 x 5 grid, action right leads to (0, 1). *)
Lemma step_adds_unit_vector_and_clamps_witness :
  agent_location (self (world5 (0, 0) [(2, 2)] [])) = Some (AVec (0, 0)) /\
  target_location (self (world5 (0, 0) [(2, 2)] [])) = Some [(2, 2)] /\
  0 <= 0 <= 3 /\ 0 < 5 /\ 0 < 5 /\ interior64 (0, 0) /\
  exists out w',
    step 0 (world5 (0, 0) [(2, 2)] []) = (Ret out, w') /\
    agent_location (self w') = Some (AVec (0, 1)).
Proof.
  split; [reflexivity |]. split; [reflexivity |]. split; [lia |].
  split; [lia |]. split; [lia |].
  assert (interior64 (0, 0)) as Hint by (unfold interior64; simpl; lia).
  split; [exact Hint |].
  apply (step_adds_unit_vector_and_clamps (world5 (0, 0) [(2, 2)] []) 0
           (0, 0) [(2, 2)]);
    [reflexivity | reflexivity | lia | simpl; lia | simpl; lia | exact Hint].
Defined.

Lemma step_keeps_agent_in_grid_witness :
  reachable (world5 (0, 0) [(2, 2)] []) /\
  agent_location (self (world5 (0, 0) [(2, 2)] [])) = Some (AVec (0, 0)) /\
  0 <= 3 <= 3 /\
  exists out w' p',
    step 3 (world5 (0, 0) [(2, 2)] []) = (Ret out, w') /\
    agent_location (self w') = Some (AVec p') /\
    row (self w') = 5 /\ col (self w') = 5 /\
    in_grid (row (self w')) (col (self w')) p'.
Proof.
  split; [exact world5_reachable |]. split; [reflexivity |]. split; [lia |].
  apply (step_keeps_agent_in_grid (world5 (0, 0) [(2, 2)] []) 3 (AVec (0, 0)));
    [exact world5_reachable | reflexivity | lia].
Defined.

Lemma step_unknown_action_raises_witness :
  ~ (0 <= 4 <= 3) /\
  fst (step 4 (world5 (0, 0) [(2, 2)] [])) = Raise KeyError.
Proof.
  split; [lia |].
  apply (step_unknown_action_raises (world5 (0, 0) [(2, 2)] []) 4). lia.
Defined.

Lemma step_unknown_action_keeps_state_witness :
  ~ (0 <= -1 <= 3) /\
  snd (step (-1) (world5 (0, 0) [(2, 2)] [])) = world5 (0, 0) [(2, 2)] [].
Proof.
  split; [lia |].
  apply (step_unknown_action_keeps_state (world5 (0, 0) [(2, 2)] []) (-1)).
  lia.
Defined.

Lemma init_accepts_any_explicit_position_witness :
  0 < 5 <= 2 ^ 63 /\ render_mode_ok None /\
  __init__ (Some (10, 10)) (TExplicit [(7, -3)]) None 5 5 1 0 [(1, 1)]
  = (Ret {| row := 5; col := 5; init_agent := np_array (Some (10, 10));
            init_target := [(7, -3)]; term_reward := 1; step_reward := 0;
            render_mode := None; window := false; clock := false;
            np_random := None; agent_location := None;
            target_location := None |}, [(1, 1)]).
Proof.
  split; [lia |]. split; [left; reflexivity |].
  apply (init_accepts_any_explicit_position (Some (10, 10)) [(7, -3)] None
           5 5 1 0 [(1, 1)]); [lia | lia | left; reflexivity].
Defined.

(** One random target, sampled at (0, 0) by the constructor; then two
    resets while the generator holds the draws (2, 3) and (4, 4). *)
Lemma resets_reuse_constructor_targets_witness :
  __init__ None (TCount 1) None 5 5 1 0 [(0, 0)]
  = (Ret (grid5 [(0, 0)]), []) /\
  seed_accepted (Some 7) /\ seed_accepted None /\
  while_sample 1 5 5 ANone [] [(0, 0)] = (Ret [(0, 0)], []) /\
  exists p1 w1 p2 w2,
    reset (Some 7) None
      {| self := grid5 [(0, 0)]; global_rng := [(2, 3); (4, 4)] |}
    = (Ret ((AVec p1, [(0, 0)]), ∅), w1) /\
    reset None None w1 = (Ret ((AVec p2, [(0, 0)]), ∅), w2) /\
    target_location (self w1) = Some [(0, 0)] /\
    target_location (self w2) = Some [(0, 0)] /\
    configured_as (grid5 [(0, 0)]) w1 /\
    configured_as (grid5 [(0, 0)]) w2 /\
    global_rng w1 = [(4, 4)] /\ global_rng w2 = [].
Proof.
  assert (seed_accepted (Some 7)) as Hs7 by (exists 7; reflexivity).
  split; [reflexivity |]. split; [exact Hs7 |]. split; [exact I |].
  apply (resets_reuse_constructor_targets (TCount 1) None 5 5 1 0
           [(0, 0)] [] (grid5 [(0, 0)]) (Some 7) None None None
           {| self := grid5 [(0, 0)]; global_rng := [(2, 3); (4, 4)] |}
           (2, 3) (4, 4) []);
    [reflexivity | repeat split | exact Hs7 | exact I | reflexivity].
Defined.

(** ** The further theorems at concrete inputs *)

Lemma step_before_reset_raises_witness :
  agent_location (grid5 [(2, 2)]) = None /\ 0 <= 1 <= 3 /\
  step 1 {| self := grid5 [(2, 2)]; global_rng := [] |}
  = (Raise AttributeError, {| self := grid5 [(2, 2)]; global_rng := [] |}).
Proof.
  split; [reflexivity |]. split; [lia |].
  apply (step_before_reset_raises
           {| self := grid5 [(2, 2)]; global_rng := [] |} 1);
    [reflexivity | lia].
Defined.

(** Up from the top-left corner: the agent stays at (0, 0). *)
Lemma step_moves_or_stays_witness :
  0 <= 1 <= 3 /\ in_grid 5 5 (0, 0) /\ interior64 (0, 0) /\
  exists out w',
    step 1 (world5 (0, 0) [(2, 2)] []) = (Ret out, w') /\
    (in_grid 5 5 (-1, 0) -> agent_location (self w') = Some (AVec (-1, 0))) /\
    (~ in_grid 5 5 (-1, 0) -> agent_location (self w') = Some (AVec (0, 0))).
Proof.
  assert (in_grid 5 5 (0, 0)) as Hin by (unfold in_grid; simpl; lia).
  assert (interior64 (0, 0)) as Hint by (unfold interior64; simpl; lia).
  split; [lia |]. split; [exact Hin |]. split; [exact Hint |].
  apply (step_moves_or_stays (world5 (0, 0) [(2, 2)] []) 1 (0, 0) [(2, 2)]);
    [reflexivity | reflexivity | lia | exact Hin | exact Hint].
Defined.

(** Right from (0, 0), then left. *)
Lemma step_then_opposite_returns_witness :
  0 <= 0 <= 3 /\ in_grid 5 5 (0, 0) /\ in_grid 5 5 (0, 1) /\
  interior64 (0, 0) /\
  exists out1 w1 out2 w2,
    step 0 (world5 (0, 0) [(2, 2)] []) = (Ret out1, w1) /\
    step 2 w1 = (Ret out2, w2) /\
    agent_location (self w2) = Some (AVec (0, 0)).
Proof.
  assert (in_grid 5 5 (0, 0)) as Hin by (unfold in_grid; simpl; lia).
  assert (in_grid 5 5 (0, 1)) as Hin' by (unfold in_grid; simpl; lia).
  assert (interior64 (0, 0)) as Hint by (unfold interior64; simpl; lia).
  split; [lia |]. split; [exact Hin |]. split; [exact Hin' |].
  split; [exact Hint |].
  apply (step_then_opposite_returns (world5 (0, 0) [(2, 2)] []) 0
           (0, 0) [(2, 2)]);
    [reflexivity | reflexivity | lia | exact Hin | exact Hin' | exact Hint].
Defined.

Lemma reset_refused_seed_keeps_state_witness :
  seeding_np_random (-1) = inl GymError /\
  reset (Some (-1)) None {| self := grid5 [(2, 2)]; global_rng := [(1, 1)] |}
  = (Raise GymError, {| self := grid5 [(2, 2)]; global_rng := [(1, 1)] |}).
Proof.
  split; [reflexivity |].
  apply (reset_refused_seed_keeps_state (-1) GymError None
           {| self := grid5 [(2, 2)]; global_rng := [(1, 1)] |}).
  reflexivity.
Defined.

Lemma reset_places_agent_in_grid_witness :
  init_agent (grid5 [(2, 2)]) = ANone /\ seed_accepted (Some 3) /\
  0 < 5 <= 2 ^ 63 /\
  exists p w',
    reset (Some 3) None {| self := grid5 [(2, 2)]; global_rng := [(7, 8)] |}
    = (Ret ((AVec p, [(2, 2)]), ∅), w') /\
    in_grid 5 5 p /\
    agent_location (self w') = Some (AVec p) /\
    row (self w') = 5 /\ col (self w') = 5 /\
    global_rng w' = [].
Proof.
  assert (seed_accepted (Some 3)) as Hs by (exists 3; reflexivity).
  split; [reflexivity |]. split; [exact Hs |]. split; [lia |].
  apply (reset_places_agent_in_grid (Some 3) None
           {| self := grid5 [(2, 2)]; global_rng := [(7, 8)] |} (7, 8) []);
    [reflexivity | exact Hs | simpl; lia | simpl; lia | reflexivity].
Defined.

Lemma reachable_uninitialized_or_ready_witness :
  reachable (world5 (0, 0) [(2, 2)] []) /\
  (uninitialized (grid5_at (0, 0) [(2, 2)]) \/
   ready (grid5_at (0, 0) [(2, 2)])).
Proof.
  split; [exact world5_reachable |].
  apply (reachable_uninitialized_or_ready (world5 (0, 0) [(2, 2)] [])).
  exact world5_reachable.
Defined.

(** Two targets on the 5 x 5 grid with the agent at (0, 0): the draws
    (0, 0) and the second (1, 1) are rejected. *)
Lemma init_samples_distinct_targets_witness :
  0 < 5 <= 2 ^ 63 /\ render_mode_ok None /\
  NoDup [(1, 1); (2, 2)] /\ 2 <= Z.of_nat (length [(1, 1); (2, 2)]) /\
  exists e used g',
    __init__ (Some (0, 0)) (TCount 2) None 5 5 1 0
      [(0, 0); (1, 1); (1, 1); (2, 2); (3, 3)] = (Ret e, g') /\
    [(0, 0); (1, 1); (1, 1); (2, 2); (3, 3)] = used ++ g' /\
    NoDup (init_target e) /\
    Z.of_nat (length (init_target e)) = Z.max 2 0 /\
    Forall (in_grid 5 5) (init_target e) /\
    (forall p, Some (0, 0) = Some p -> ~ In p (init_target e)) /\
    (forall t, In t (init_target e) ->
       In t (map (randint_reduce 5 5) used)).
Proof.
  assert (NoDup [(1, 1); (2, 2)]) as Hnd.
  { apply NoDup_cons. split.
    - intros Hin. apply list_elem_of_In in Hin.
      destruct Hin as [Heq | []]. discriminate Heq.
    - apply NoDup_singleton. }
  split; [lia |]. split; [left; reflexivity |]. split; [exact Hnd |].
  split; [simpl; lia |].
  apply (init_samples_distinct_targets (Some (0, 0)) 2 None 5 5 1 0
           [(0, 0); (1, 1); (1, 1); (2, 2); (3, 3)] [(1, 1); (2, 2)]);
    [lia | lia | left; reflexivity | exact Hnd | simpl; lia |].
  intros x [<- | [<- | []]]; (split; [discriminate | simpl; tauto]).
Defined.


Lemma init_nonpositive_count_no_targets_witness :
  0 <= 0 /\ 0 < 5 <= 2 ^ 63 /\ render_mode_ok (Some "rgb_array"%string) /\
  __init__ None (TCount 0) (Some "rgb_array"%string) 5 5 1 0 [(1, 1)]
  = (Ret {| row := 5; col := 5; init_agent := np_array None;
            init_target := []; term_reward := 1; step_reward := 0;
            render_mode := Some "rgb_array"%string;
            window := false; clock := false;
            np_random := None; agent_location := None;
            target_location := None |}, [(1, 1)]).
Proof.
  assert (render_mode_ok (Some "rgb_array"%string)) as Hrm
    by (right; right; reflexivity).
  split; [lia |]. split; [lia |]. split; [exact Hrm |].
  apply (init_nonpositive_count_no_targets None 0 (Some "rgb_array"%string)
           5 5 1 0 [(1, 1)]); [lia | lia | lia | exact Hrm].
Defined.

Lemma init_returns_only_valid_witness :
  __init__ (Some (0, 0)) (TExplicit [(2, 2)]) None 5 5 1 0 [(1, 1)]
  = (Ret explicit5, [(1, 1)]) /\
  5 <> 0 /\ render_mode_ok None /\
  row explicit5 = 5 /\ col explicit5 = 5 /\
  init_agent explicit5 = np_array (Some (0, 0)) /\
  term_reward explicit5 = 1 /\ step_reward explicit5 = 0 /\
  render_mode explicit5 = None /\
  np_random explicit5 = None /\ uninitialized explicit5 /\
  init_target explicit5 = [(2, 2)] /\ [(1, 1)] = [(1, 1)].
Proof.
  split; [reflexivity |].
  apply (init_returns_only_valid (Some (0, 0)) (TExplicit [(2, 2)]) None
           5 5 1 0 [(1, 1)] [(1, 1)] explicit5).
  reflexivity.
Defined.

Lemma reset_never_places_explicit_agent_witness :
  init_agent explicit5 = AVec (0, 0) /\
  exists ex w',
    reset (Some 3) None {| self := explicit5; global_rng := [(1, 1)] |}
    = (Raise ex, w') /\
    (seed_accepted (Some 3) -> ex = ValueError) /\
    agent_location (self w') = None /\
    target_location (self w') = None /\
    global_rng w' = [(1, 1)].
Proof.
  split; [reflexivity |].
  apply (reset_never_places_explicit_agent (Some 3) None
           {| self := explicit5; global_rng := [(1, 1)] |} (0, 0)).
  reflexivity.
Defined.

Lemma reset_result_independent_of_seed_witness :
  seed_accepted (Some 1) /\ seed_accepted (Some 2) /\
  fst (reset (Some 1) None {| self := grid5 [(2, 2)]; global_rng := [(3, 4)] |})
  = fst (reset (Some 2) None
           {| self := grid5 [(2, 2)]; global_rng := [(3, 4)] |}) /\
  global_rng
    (snd (reset (Some 1) None
            {| self := grid5 [(2, 2)]; global_rng := [(3, 4)] |}))
  = global_rng
      (snd (reset (Some 2) None
              {| self := grid5 [(2, 2)]; global_rng := [(3, 4)] |})).
Proof.
  assert (seed_accepted (Some 1)) as H1 by (exists 1; reflexivity).
  assert (seed_accepted (Some 2)) as H2 by (exists 2; reflexivity).
  split; [exact H1 |]. split; [exact H2 |].
  apply (reset_result_independent_of_seed (Some 1) (Some 2) None
           {| self := grid5 [(2, 2)]; global_rng := [(3, 4)] |});
    assumption.
Defined.

Lemma reachable_grid_bounds_witness :
  reachable (world5 (0, 0) [(2, 2)] []) /\
  0 < 5 <= 2 ^ 63 /\ 0 < 5 <= 2 ^ 63 /\ randint_rejects 5 5 = false.
Proof.
  split; [exact world5_reachable |].
  apply (reachable_grid_bounds (world5 (0, 0) [(2, 2)] [])).
  exact world5_reachable.
Defined.
